(** * NAFA Audit Sync Worker: a model of [src/index.js] and its properties

    The worker receives a Monday.com webhook, reads the item from Monday,
    downloads its most recent NAFA file, uploads it to Close CRM and to the
    R2 bucket, writes the R2 address into a custom field of the Close lead
    and creates a note on the lead.

    The model follows [src/index.js] function by function.  JavaScript
    strings are represented by the bytes of their UTF-8 encoding, parsed
    JSON by a first-order [value] type, and the outbound calls ([fetch] and
    the bucket's [put]) by a record of oracles, the [World]; each handler
    run yields its result together with the list of outbound calls it made,
    in order.  Console output is not part of the model. *)

From Stdlib Require Import ZArith List String Ascii Bool Lia DecimalString.
From Stdlib Require Import Permutation Sorted.
Import ListNotations.

Set Warnings "-register-all".

Local Open Scope string_scope.
Local Open Scope Z_scope.

(** ** Strings *)

Module Str.

(** The double quote character, for JSON text held in string literals. *)
Definition dquote : string := String (ascii_of_nat 34) EmptyString.

Definition of_bytes (l : list nat) : string :=
  fold_right (fun n s => String (ascii_of_nat n) s) EmptyString l.

Fixpoint rev_onto (s acc : string) : string :=
  match s with
  | EmptyString => acc
  | String c s' => rev_onto s' (String c acc)
  end.

Definition rev (s : string) : string := rev_onto s EmptyString.

(** [s.split(sep)] for a one-character separator: never empty. *)
Fixpoint split_onto (sep : ascii) (s : string) (cur : string) : list string :=
  match s with
  | EmptyString => [rev cur]
  | String c s' =>
      if Ascii.eqb c sep then rev cur :: split_onto sep s' EmptyString
      else split_onto sep s' (String c cur)
  end.

Definition split (sep : ascii) (s : string) : list string :=
  split_onto sep s EmptyString.

(** [arr.pop()]: the last element, [None] for [undefined] on an empty array. *)
Fixpoint pop (l : list string) : option string :=
  match l with
  | [] => None
  | [x] => Some x
  | _ :: l' => pop l'
  end.

Definition is_upper (c : ascii) : bool :=
  let n := nat_of_ascii c in (Nat.leb 65 n && Nat.leb n 90)%bool.

Definition lower_char (c : ascii) : ascii :=
  if is_upper c then ascii_of_nat (nat_of_ascii c + 32) else c.

(** [s.toLowerCase()] on the ASCII letters.  The other characters are left
    as they are: the only ones JavaScript lowers to something containing
    an ASCII letter are U+212A (to k) and U+0130 (to i followed by
    U+0307), and no key compared with a lowered string below contains a k
    or a character outside ASCII, so every comparison made with the result
    has the outcome it has in JavaScript. *)
Fixpoint toLowerCase (s : string) : string :=
  match s with
  | EmptyString => EmptyString
  | String c s' => String (lower_char c) (toLowerCase s')
  end.

(** [s] without the prefix [p], when it starts with [p]. *)
Fixpoint strip_prefix (p s : string) : option string :=
  match p, s with
  | EmptyString, _ => Some s
  | String a p', String b s' =>
      if Ascii.eqb a b then strip_prefix p' s' else None
  | String _ _, EmptyString => None
  end.

(** The white space and line terminator characters of ECMAScript, as
    UTF-8: U+0009 to U+000D, U+0020, U+00A0, U+1680, U+2000 to U+200A,
    U+2028, U+2029, U+202F, U+205F, U+3000 and U+FEFF. *)
Definition white_space : list string :=
  map of_bytes
    [ [9]; [10]; [11]; [12]; [13]; [32]; [194; 160]; [225; 154; 128];
      [226; 128; 128]; [226; 128; 129]; [226; 128; 130]; [226; 128; 131];
      [226; 128; 132]; [226; 128; 133]; [226; 128; 134]; [226; 128; 135];
      [226; 128; 136]; [226; 128; 137]; [226; 128; 138]; [226; 128; 168];
      [226; 128; 169]; [226; 128; 175]; [226; 129; 159]; [227; 128; 128];
      [239; 187; 191] ]%nat.

Fixpoint strip_any (ps : list string) (s : string) : option string :=
  match ps with
  | [] => None
  | p :: ps' =>
      match strip_prefix p s with
      | Some s' => Some s'
      | None => strip_any ps' s
      end
  end.

Fixpoint strip_all (fuel : nat) (ps : list string) (s : string) : string :=
  match fuel with
  | O => s
  | S fuel' =>
      match strip_any ps s with
      | Some s' => strip_all fuel' ps s'
      | None => s
      end
  end.

Definition trimStart (s : string) : string :=
  strip_all (String.length s) white_space s.

Definition trimEnd (s : string) : string :=
  rev (strip_all (String.length s) (map rev white_space) (rev s)).

(** [s.trim()]. *)
Definition trim (s : string) : string := trimEnd (trimStart s).

Definition hex_digit (n : nat) : ascii :=
  if Nat.ltb n 10 then ascii_of_nat (48 + n) else ascii_of_nat (55 + n).

(** The characters [encodeURIComponent] leaves alone: letters, digits and
    [- _ . ! ~ * ' ( )]. *)
Definition uri_unreserved (c : ascii) : bool :=
  let n := nat_of_ascii c in
  ((Nat.leb 65 n && Nat.leb n 90) || (Nat.leb 97 n && Nat.leb n 122)
   || (Nat.leb 48 n && Nat.leb n 57)
   || existsb (Nat.eqb n) [45; 95; 46; 33; 126; 42; 39; 40; 41]%nat)%bool.

(** [encodeURIComponent(s)]: every other byte of the UTF-8 encoding is
    written as a percent sign and two upper-case hexadecimal digits.  (A
    string with an unpaired surrogate, on which JavaScript throws, has no
    UTF-8 encoding and so no representation here.) *)
Fixpoint encodeURIComponent (s : string) : string :=
  match s with
  | EmptyString => EmptyString
  | String c s' =>
      if uri_unreserved c then String c (encodeURIComponent s')
      else
        let n := nat_of_ascii c in
        String "%" (String (hex_digit (n / 16)) (String (hex_digit (n mod 16))
               (encodeURIComponent s')))
  end.

(** The decimal digits of an integer [n]. *)
Definition of_Z (n : Z) : string := NilZero.string_of_int (Z.to_int n).

Definition two_53 : Z := 9007199254740992.

Definition two_1024 : Z := Z.shiftl 1 1024.

(** The double nearest to the positive integer [v], ties going to the even
    significand of 53 bits; a result of [two_1024] or more stands for
    Infinity. *)
Definition round_double (v : Z) : Z :=
  if v <? two_53 then v
  else
    let e := Z.log2 v - 52 in
    let q := Z.shiftr v e in
    let r := v - Z.shiftl q e in
    let half := Z.shiftl 1 (e - 1) in
    let q' := if (half <? r) || ((r =? half) && Z.odd q) then q + 1 else q in
    Z.shiftl q' e.

Definition digits (v : Z) : Z := Z.of_nat (String.length (of_Z v)).

(** The integer with the fewest significant digits, [k] or more, that
    rounds to the double [x]; of two with as many digits the nearer to [x],
    and of two as near the one of even last digit. *)
Fixpoint shortest (fuel : nat) (k : Z) (x : Z) : Z :=
  match fuel with
  | O => x
  | S fuel' =>
      let m := digits x - k in
      if m <=? 0 then x
      else
        let p := 10 ^ m in
        let lo := (x / p) * p in
        let hi := lo + p in
        match round_double lo =? x, round_double hi =? x with
        | true, true =>
            if x - lo <? hi - x then lo
            else if hi - x <? x - lo then hi
            else if Z.even (x / p) then lo else hi
        | true, false => lo
        | false, true => hi
        | false, false => shortest fuel' (k + 1) x
        end
  end.

Fixpoint drop_zeros (s : string) : string :=
  match s with
  | String "0" s' => drop_zeros s'
  | _ => s
  end.

(** The digits of [v] without its final zeros. *)
Definition significand (v : Z) : string := rev (drop_zeros (rev (of_Z v))).

(** The form with an exponent, as in 1.1805916207174113e+21. *)
Definition exponential (v : Z) : string :=
  let e := of_Z (digits v - 1) in
  match significand v with
  | String d EmptyString => String d ("e+" ++ e)
  | String d ds => String d ("." ++ ds ++ "e+" ++ e)
  | EmptyString => EmptyString
  end.

(** [String(x)] for a positive double [x] of integer value: its digits
    below 2^53; above, the shortest digits that denote [x], followed by
    zeros up to 21 digits and in the form with an exponent beyond. *)
Definition of_double (x : Z) : string :=
  if x <? two_53 then of_Z x
  else if two_1024 <=? x then "Infinity"
  else
    let v := shortest 17 1 x in
    if digits v <=? 21 then of_Z v else exponential v.

(** [String(n)] for the number that [JSON.parse] makes of the integer
    literal [n], which is the double nearest to [n]. *)
Definition of_number (n : Z) : string :=
  let body := of_double (round_double (Z.abs n)) in
  if n <? 0 then "-" ++ body else body.

Fixpoint join (sep : string) (l : list string) : string :=
  match l with
  | [] => EmptyString
  | [x] => x
  | x :: l' => x ++ sep ++ join sep l'
  end.

End Str.

(** ** Object literals and their inherited properties *)

(** What a property read on an object created by a literal can yield when
    the stored values are strings: a string, or one of the members that
    every object inherits from [Object.prototype], which are functions or
    objects and not strings. *)
Inductive prop : Type :=
| PStr (s : string)
| PInherited (name : string).

(** The property names of [Object.prototype]. *)
Definition object_prototype : list string :=
  [ "constructor"; "__proto__"; "hasOwnProperty"; "isPrototypeOf";
    "propertyIsEnumerable"; "toLocaleString"; "toString"; "valueOf";
    "__defineGetter__"; "__defineSetter__"; "__lookupGetter__";
    "__lookupSetter__" ].

Fixpoint assoc {A : Type} (k : string) (l : list (string * A)) : option A :=
  match l with
  | [] => None
  | (k', v) :: l' => if String.eqb k k' then Some v else assoc k l'
  end.

(** [obj[k]] for an object literal [obj] with string values: the own
    property when there is one, else the inherited one, else [undefined]. *)
Definition get_literal (own : list (string * string)) (k : string) : option prop :=
  match assoc k own with
  | Some s => Some (PStr s)
  | None =>
      if existsb (String.eqb k) object_prototype then Some (PInherited k)
      else None
  end.

Definition truthy_prop (p : prop) : bool :=
  match p with
  | PStr s => negb (String.eqb s "")
  | PInherited _ => true
  end.

(** ** [getMimeType] *)

Definition mimeTypes : list (string * string) :=
  [ ("pdf", "application/pdf");
    ("png", "image/png");
    ("jpg", "image/jpeg");
    ("jpeg", "image/jpeg");
    ("gif", "image/gif");
    ("doc", "application/msword");
    ("docx", "application/vnd.openxmlformats-officedocument.wordprocessingml.document");
    ("xls", "application/vnd.ms-excel");
    ("xlsx", "application/vnd.openxmlformats-officedocument.spreadsheetml.sheet");
    ("csv", "text/csv");
    ("txt", "text/plain");
    ("html", "text/html");
    ("zip", "application/zip") ].

(** [filename.split('.').pop()?.toLowerCase()]. *)
Definition extension (filename : string) : option string :=
  option_map Str.toLowerCase (Str.pop (Str.split "." filename)).

(** [mimeTypes[ext] || 'application/octet-stream']. *)
Definition getMimeType (filename : string) : prop :=
  match extension filename with
  | Some ext =>
      match get_literal mimeTypes ext with
      | Some p => if truthy_prop p then p else PStr "application/octet-stream"
      | None => PStr "application/octet-stream"
      end
  | None => PStr "application/octet-stream"
  end.

(** ** Values *)

(** Parsed JSON, and [undefined] for what a property read can yield.  A
    number is one written as an integer: [VNum n] is what [JSON.parse]
    makes of the literal [n], the double nearest to [n] (which is [n] itself
    up to 2^53); numbers with a fraction are not in the type.  An object is
    the list of its own properties, each name once, in the order of
    insertion. *)
Inductive value : Type :=
| VUndefined
| VNull
| VBool (b : bool)
| VNum (n : Z)
| VStr (s : string)
| VArr (elems : list value)
| VObj (props : list (string * value)).

(** The result of an evaluation that can throw (or of a promise that can
    be rejected). *)
Inductive outcome (A : Type) : Type :=
| Ok (a : A)
| Throw.

Arguments Ok {A} a.
Arguments Throw {A}.

Definition obind {A B : Type} (o : outcome A) (f : A -> outcome B) : outcome B :=
  match o with
  | Ok a => f a
  | Throw => Throw
  end.

(** The truth value of [v] in a condition. *)
Definition truthy (v : value) : bool :=
  match v with
  | VUndefined | VNull => false
  | VBool b => b
  | VNum n => negb (n =? 0)
  | VStr s => negb (String.eqb s "")
  | VArr _ | VObj _ => true
  end.

(** [v === s] for a string [s]. *)
Definition strict_eq_str (v : value) (s : string) : bool :=
  match v with
  | VStr t => String.eqb t s
  | _ => false
  end.

(** [v.k], for the property names the handler reads ([challenge], [event],
    [columnId], [value], [pulseId], [itemId], [payload], [inputFields],
    [inboundFieldValues]).  None of them is a property of an array, a
    string, a number or a boolean, or of a prototype, so on everything but
    an object that has it the read yields [undefined]; on [null] and
    [undefined] it throws a TypeError. *)
Definition get (v : value) (k : string) : outcome value :=
  match v with
  | VUndefined | VNull => Throw
  | VObj props =>
      Ok (match assoc k props with Some x => x | None => VUndefined end)
  | VBool _ | VNum _ | VStr _ | VArr _ => Ok VUndefined
  end.

(** [a || b], where [b] is evaluated only when [a] is falsy. *)
Definition or_else (a : value) (b : outcome value) : outcome value :=
  if truthy a then Ok a else b.

Definition has_own (k : string) (props : list (string * value)) : bool :=
  match assoc k props with Some _ => true | None => false end.

(** [String(v)] and [v] in a template literal.  An array is joined with
    commas, [null] and [undefined] elements giving the empty string.  An
    object gives ["[object Object]"] through [Object.prototype.toString],
    unless it has a [toString] property of its own: a parsed JSON value is
    never callable, and the inherited [valueOf] returns the object itself,
    so the conversion then throws a TypeError. *)
Fixpoint to_string (v : value) : outcome string :=
  match v with
  | VUndefined => Ok "undefined"
  | VNull => Ok "null"
  | VBool true => Ok "true"
  | VBool false => Ok "false"
  | VNum n => Ok (Str.of_number n)
  | VStr s => Ok s
  | VArr elems =>
      let fix each (l : list value) : outcome (list string) :=
        match l with
        | [] => Ok []
        | x :: l' =>
            obind (match x with
                   | VUndefined | VNull => Ok ""
                   | _ => to_string x
                   end)
                  (fun s => obind (each l') (fun ss => Ok (s :: ss)))
        end in
      obind (each elems) (fun ss => Ok (Str.join "," ss))
  | VObj props =>
      if has_own "toString" props then Throw else Ok "[object Object]"
  end.

(** The truth value of a string that may be [null] or [undefined]. *)
Definition truthy_str (o : option string) : bool :=
  match o with
  | Some s => negb (String.eqb s "")
  | None => false
  end.

(** [a || b] on such strings. *)
Definition or_str (a b : option string) : option string :=
  if truthy_str a then a else b.

(** ** Configuration, outbound calls and the world *)

(** The worker's secrets, all set, and the two keys in ASCII so that [btoa]
    accepts them.  (The [NAFA_BUCKET] binding is the world's
    [bucket_put].) *)
Record Env : Type := {
  MONDAY_API_TOKEN : string;
  CLOSE_API_KEY : string;
  NAFA_FILE_COLUMN_ID : string;
  CLOSE_LEAD_ID_COLUMN_ID : string;
  CLOSE_NAFA_URL_FIELD_ID : string;
  R2_PUBLIC_URL : string
}.

Definition bytes : Type := list Byte.byte.

(** The answer of Monday's GraphQL API to the query of [getMondayItemData],
    typed by the query.  [created_at] holds the time value, in milliseconds,
    that [new Date] gives the instant Monday reports; a [public_url] that
    is absent is the empty string, which is as falsy. *)
Record column_value : Type := {
  cv_id : string;
  cv_text : option string;
  cv_display_value : option string
}.

Record asset : Type := {
  asset_id : string;
  asset_name : string;
  public_url : string;
  created_at : Z
}.

Record item : Type := {
  item_name : string;
  column_values : list column_value;
  item_assets : list asset
}.

Record monday_data : Type := {
  md_errors : option (list string);
  md_items : list item
}.

(** The answer of Close to the initialisation of an upload. *)
Record init_data : Type := {
  upload_url : option string;
  upload_fields : option (list (string * string));
  download_url : option string
}.

(** The outbound calls, with the data the worker puts in them. *)
Inductive call : Type :=
| MondayQuery (leadIdColumn itemId columnId : string)
| MondayDownload (publicUrl : string)
| CloseFileInit (filename : string) (contentType : prop)
| S3Post (uploadUrl : string) (fields : list (string * string))
         (filename : string) (contentType : prop) (fileData : bytes)
| BucketPut (key : string) (fileData : bytes) (contentType : prop)
| CloseLeadPut (leadId field r2Url : string)
| CloseNotePost (leadId note fileUrl filename : string) (contentType : prop).

(** What the outside answers.  [Throw] is a rejected [fetch] (or [put]), or
    for Monday also a body that is not JSON; a number is the status of the
    response; the body of Close's initialisation response is [None] when it
    is not JSON, or is the JSON null, on which the read of [upload] throws
    as well.  [now_iso] is [new Date().toISOString()].  An answer
    depends on the request only: an invocation works on one asset at most
    and makes each request once. *)
Record World : Type := {
  monday_api : string -> outcome monday_data;
  monday_file : string -> outcome (Z * bytes);
  close_files_upload : string -> prop -> outcome (Z * option init_data);
  s3_post : string -> outcome Z;
  bucket_put : string -> outcome unit;
  close_lead_put : string -> string -> outcome Z;
  close_note_post : string -> string -> outcome Z;
  now_iso : string
}.

(** [response.ok]. *)
Definition ok (status : Z) : bool := (200 <=? status) && (status <=? 299).

(** ** The monad of the handler: the world is read, the calls are recorded,
    an exception ends the computation and keeps the calls made so far. *)

Definition M (A : Type) : Type := World -> outcome A * list call.

Definition ret {A : Type} (a : A) : M A := fun _ => (Ok a, []).

Definition bind {A B : Type} (m : M A) (f : A -> M B) : M B :=
  fun w =>
    match m w with
    | (Ok a, t) => let (r, t') := f a w in (r, (t ++ t')%list)
    | (Throw, t) => (Throw, t)
    end.

(** An evaluation without outbound calls. *)
Definition lift {A : Type} (o : outcome A) : M A := fun _ => (o, []).

(** An outbound call and its answer. *)
Definition perform {A : Type} (c : call) (answer : World -> outcome A) : M A :=
  fun w => (answer w, [c]).

(** [try { m } catch (err) { h }]. *)
Definition try_catch {A : Type} (m : M A) (h : M A) : M A :=
  fun w =>
    match m w with
    | (Ok a, t) => (Ok a, t)
    | (Throw, t) => let (r, t') := h w in (r, (t ++ t')%list)
    end.

Declare Scope handler_scope.
Delimit Scope handler_scope with handler.
Notation "x <- m ;; k" := (bind m (fun x => k))
  (at level 61, m at next level, right associativity) : handler_scope.
Notation "m ;;; k" := (bind m (fun _ => k))
  (at level 61, right associativity) : handler_scope.
Local Open Scope handler_scope.

Definition ask : M World := fun w => (Ok w, []).

Definition run {A : Type} (m : M A) (w : World) : outcome A * list call := m w.

(** ** Monday.com helpers *)

(** [Array.prototype.sort] with a comparison function.  With a consistent
    comparison, as the difference of two time values is, every conforming
    sort gives the same array: the elements in the order of the comparison,
    those that compare equal in their original order.  Insertion from the
    right is such a sort. *)
Fixpoint insert_by {A : Type} (cmp : A -> A -> Z) (x : A) (l : list A) : list A :=
  match l with
  | [] => [x]
  | y :: l' => if cmp x y <=? 0 then x :: y :: l' else y :: insert_by cmp x l'
  end.

Definition sort {A : Type} (cmp : A -> A -> Z) (l : list A) : list A :=
  fold_right (insert_by cmp) [] l.

(** [(a, b) => new Date(b.created_at) - new Date(a.created_at)]. *)
Definition newest_first (a b : asset) : Z := created_at b - created_at a.

Record item_data : Type := {
  name : string;
  closeLeadId : option string;
  assets : list asset
}.

Definition getMondayItemData (itemId : value) (env : Env) : M (option item_data) :=
  id <- lift (to_string itemId) ;;
  data <- perform (MondayQuery (CLOSE_LEAD_ID_COLUMN_ID env) id (NAFA_FILE_COLUMN_ID env))
                  (fun w => monday_api w id) ;;
  match md_errors data with
  | Some _ => ret None
  | None =>
      match md_items data with
      | [] => ret None
      | item :: _ =>
          let closeLeadIdColumn :=
            find (fun col => String.eqb (cv_id col) (CLOSE_LEAD_ID_COLUMN_ID env))
                 (column_values item) in
          let text := match closeLeadIdColumn with Some col => cv_text col | None => None end in
          let display_value :=
            match closeLeadIdColumn with Some col => cv_display_value col | None => None end in
          let rawLeadId := or_str (or_str text display_value) None in
          let allAssets := sort newest_first (item_assets item) in
          let latestAsset := match allAssets with a :: _ => [a] | [] => [] end in
          ret (Some {| name := item_name item;
                       closeLeadId := or_str (option_map Str.trim rawLeadId) None;
                       assets := latestAsset |})
      end
  end.

Definition downloadMondayFile (publicUrl : string) : M (option bytes) :=
  if String.eqb publicUrl "" then ret None
  else
    try_catch
      (response <- perform (MondayDownload publicUrl) (fun w => monday_file w publicUrl) ;;
       let (status, data) := response in
       if negb (ok status) then ret None else ret (Some data))
      (ret None).

(** ** Close CRM helpers *)

Definition uploadFileToClose (filename : string) (contentType : prop)
    (fileData : bytes) (env : Env) : M (option string) :=
  initResponse <- perform (CloseFileInit filename contentType)
                          (fun w => close_files_upload w filename contentType) ;;
  let (status, body) := initResponse in
  if negb (ok status) then ret None
  else
    initData <- lift (match body with Some d => Ok d | None => Throw end) ;;
    match upload_url initData, upload_fields initData, download_url initData with
    | Some uploadUrl, Some uploadFields, Some downloadUrl =>
        if String.eqb uploadUrl "" || String.eqb downloadUrl "" then ret None
        else
          s3Status <- perform (S3Post uploadUrl uploadFields filename contentType fileData)
                              (fun w => s3_post w uploadUrl) ;;
          if negb (s3Status =? 201) && negb (s3Status =? 204) then ret None
          else ret (Some downloadUrl)
    | _, _, _ => ret None
    end.

Definition newline : string := Str.of_bytes [10%nat].

(** The four characters U+00F0, U+0178, U+201C and U+2039 that open the
    template of the note in the source (the bytes of the clipboard sign
    U+1F4CB read as Windows-1252). *)
Definition clipboard : string :=
  Str.of_bytes [195; 176; 197; 184; 226; 128; 156; 226; 128; 185]%nat.

Definition note_text (filename itemName today : string) : string :=
  clipboard ++ " **NAFA Audit File Uploaded**" ++ newline ++ newline
  ++ "File: " ++ filename ++ newline
  ++ "Source: Monday.com - Credit Audits Board" ++ newline
  ++ "Lead: " ++ itemName ++ newline
  ++ "Date: " ++ today ++ newline ++ newline
  ++ "This file was automatically synced from Monday.com.".

Definition createCloseNote (leadId filename fileUrl : string) (contentType : prop)
    (itemName : string) (itemId : value) (env : Env) : M bool :=
  w <- ask ;;
  let today := hd "" (Str.split "T" (now_iso w)) in
  let note := note_text filename itemName today in
  status <- perform (CloseNotePost leadId note fileUrl filename contentType)
                    (fun w => close_note_post w leadId fileUrl) ;;
  if negb (ok status) then ret false else ret true.

Definition updateCloseLeadField (leadId r2Url : string) (env : Env) : M bool :=
  try_catch
    (status <- perform (CloseLeadPut leadId ("custom." ++ CLOSE_NAFA_URL_FIELD_ID env) r2Url)
                       (fun w => close_lead_put w leadId r2Url) ;;
     if negb (ok status) then ret false else ret true)
    (ret false).

(** ** R2 helper *)

Definition uploadFileToR2 (filename : string) (contentType : prop)
    (fileData : bytes) (itemId : value) (env : Env) : M (option string) :=
  try_catch
    (id <- lift (to_string itemId) ;;
     let r2Key := id ++ "/" ++ filename in
     perform (BucketPut r2Key fileData contentType) (fun w => bucket_put w r2Key) ;;;
     let encodedKey := id ++ "/" ++ Str.encodeURIComponent filename in
     let publicUrl := R2_PUBLIC_URL env ++ "/" ++ encodedKey in
     ret (Some publicUrl))
    (ret None).

(** ** The handler *)

(** The body of a response: a text, or the JSON text of a value. *)
Inductive body : Type :=
| Text (s : string)
| Json (v : value).

Record Response : Type := {
  resp_body : body;
  status : Z;
  headers : list (string * string)
}.

(** A request: its method, and what [request.json()] gives. *)
Record Request : Type := {
  method : string;
  json : outcome value
}.

Definition text_response (s : string) (st : Z) : Response :=
  {| resp_body := Text s; status := st; headers := [] |}.

(** [new Response(JSON.stringify({ challenge }), { headers })]: the status
    is the default one, 200. *)
Definition challenge_response (challenge : value) : Response :=
  {| resp_body := Json (VObj [("challenge", challenge)]);
     status := 200;
     headers := [("Content-Type", "application/json")] |}.

(** The two values of a column from which the file was removed. *)
Definition empty_object_text : string := "{}".
Definition empty_files_text : string :=
  "{" ++ Str.dquote ++ "files" ++ Str.dquote ++ ":[]}".

(** What the extraction of the item identifier ends with: a response
    returned at once, or the value of [itemId]. *)
Inductive extracted : Type :=
| Reply (r : Response)
| ItemId (itemId : value).

(** The event branch after the column filter. *)
Definition event_after_column_filter (event : value) : outcome extracted :=
  obind (get event "value") (fun value =>
  if truthy value && (strict_eq_str value empty_object_text
                      || strict_eq_str value empty_files_text)
  then Ok (Reply (text_response "File was removed, skipping" 200))
  else
    obind (get event "pulseId") (fun pulseId =>
    obind (or_else pulseId (get event "itemId")) (fun itemId =>
    Ok (ItemId itemId)))).

(** The extraction of the item identifier from the payload formats. *)
Definition extract_item_id (body : value) (env : Env) : outcome extracted :=
  obind (get body "event") (fun event =>
  if truthy event then
    obind (get event "columnId") (fun columnId =>
    if truthy columnId && negb (strict_eq_str columnId (NAFA_FILE_COLUMN_ID env))
    then Ok (Reply (text_response "Ignoring non-NAFA column change" 200))
    else event_after_column_filter event)
  else
    obind (get body "payload") (fun payload =>
    if truthy payload then
      obind (get payload "inputFields") (fun inputFields =>
      obind (or_else inputFields
               (obind (get payload "inboundFieldValues") (fun inbound =>
                or_else inbound (Ok (VObj []))))) (fun fields =>
      obind (get fields "itemId") (fun fieldsItemId =>
      obind (or_else fieldsItemId (get fields "pulseId")) (fun itemId =>
      obind (get payload "itemId") (fun payloadItemId =>
      if negb (truthy itemId) && truthy payloadItemId
      then Ok (ItemId payloadItemId)
      else Ok (ItemId itemId))))))
    else
      obind (get body "itemId") (fun bodyItemId =>
      obind (or_else bodyItemId (get body "pulseId")) (fun itemId =>
      Ok (ItemId itemId))))).

(** One turn of the loop over the assets. *)
Definition process_asset (closeLeadId itemName : string) (itemId : value)
    (env : Env) (a : asset) : M unit :=
  fileData <- downloadMondayFile (public_url a) ;;
  match fileData with
  | None => ret tt
  | Some fileData =>
      let contentType := getMimeType (asset_name a) in
      closeFileUrl <- uploadFileToClose (asset_name a) contentType fileData env ;;
      match closeFileUrl with
      | None => ret tt
      | Some closeFileUrl =>
          r2PublicUrl <- uploadFileToR2 (asset_name a) contentType fileData itemId env ;;
          match r2PublicUrl with
          | Some url =>
              if String.eqb url "" then ret false
              else updateCloseLeadField closeLeadId url env
          | None => ret false
          end ;;;
          createCloseNote closeLeadId (asset_name a) closeFileUrl contentType
                          itemName itemId env ;;;
          ret tt
      end
  end.

(** [for (const x of l) { body }]. *)
Fixpoint for_each {A : Type} (l : list A) (body : A -> M unit) : M unit :=
  match l with
  | [] => ret tt
  | x :: l' => body x ;;; for_each l' body
  end.

(** The handler from the point where the item identifier is known. *)
Definition process_item (itemId : value) (env : Env) : M Response :=
  lift (to_string itemId) ;;;
  itemData <- getMondayItemData itemId env ;;
  match itemData with
  | None => ret (text_response "Failed to fetch item data" 500)
  | Some itemData =>
      match closeLeadId itemData with
      | None => ret (text_response "No Close Lead ID on item" 200)
      | Some leadId =>
          if String.eqb leadId ""
          then ret (text_response "No Close Lead ID on item" 200)
          else
            match assets itemData with
            | [] => ret (text_response "No file assets found" 200)
            | assets =>
                for_each assets (process_asset leadId (name itemData) itemId env) ;;;
                ret (text_response "OK" 200)
            end
      end
  end.

Definition fetch (request : Request) (env : Env) : M Response :=
  if negb (String.eqb (method request) "POST")
  then ret (text_response "Method not allowed" 405)
  else
    try_catch
      (body <- lift (json request) ;;
       challenge <- lift (get body "challenge") ;;
       if truthy challenge then ret (challenge_response challenge)
       else
         e <- lift (extract_item_id body env) ;;
         match e with
         | Reply r => ret r
         | ItemId itemId =>
             if negb (truthy itemId)
             then ret (text_response "No item ID found in payload" 200)
             else process_item itemId env
         end)
      (ret (text_response "Internal error" 500)).

(** ** A configuration and a world to run the handler in *)

Module Sample.

Definition env : Env :=
  {| MONDAY_API_TOKEN := "monday-token";
     CLOSE_API_KEY := "close-key";
     NAFA_FILE_COLUMN_ID := "files";
     CLOSE_LEAD_ID_COLUMN_ID := "lead";
     CLOSE_NAFA_URL_FIELD_ID := "cf_nafa";
     R2_PUBLIC_URL := "https://r2.example" |}.

Definition asset1 : asset :=
  {| asset_id := "1"; asset_name := "first.pdf";
     public_url := "https://files.example/1"; created_at := 1000 |}.
Definition asset2 : asset :=
  {| asset_id := "2"; asset_name := "a b.pdf";
     public_url := "https://files.example/2"; created_at := 3000 |}.
Definition asset3 : asset :=
  {| asset_id := "3"; asset_name := "third.pdf";
     public_url := "https://files.example/3"; created_at := 2000 |}.

Definition the_item : item :=
  {| item_name := "Jane Doe";
     column_values :=
       [ {| cv_id := "lead"; cv_text := Some " lead_42 "; cv_display_value := None |} ];
     item_assets := [asset1; asset2; asset3] |}.

Definition the_init : init_data :=
  {| upload_url := Some "https://s3.example/upload";
     upload_fields := Some [("key", "k1")];
     download_url := Some "https://close.example/file/9" |}.

(** Everything answers and succeeds. *)
Definition world : World :=
  {| monday_api := fun _ => Ok {| md_errors := None; md_items := [the_item] |};
     monday_file := fun _ => Ok (200, [Byte.x25; Byte.x50]);
     close_files_upload := fun _ _ => Ok (200, Some the_init);
     s3_post := fun _ => Ok 204;
     bucket_put := fun _ => Ok tt;
     close_lead_put := fun _ _ => Ok 200;
     close_note_post := fun _ _ => Ok 200;
     now_iso := "2024-05-06T07:08:09.000Z" |}.

(** Monday reports errors. *)
Definition world_monday_errors : World :=
  {| monday_api := fun _ => Ok {| md_errors := Some ["Complexity budget exhausted"];
                                  md_items := [] |};
     monday_file := monday_file world;
     close_files_upload := close_files_upload world;
     s3_post := s3_post world;
     bucket_put := bucket_put world;
     close_lead_put := close_lead_put world;
     close_note_post := close_note_post world;
     now_iso := now_iso world |}.

(** The connection to Close fails when the upload is initialised. *)
Definition world_close_down : World :=
  {| monday_api := monday_api world;
     monday_file := monday_file world;
     close_files_upload := fun _ _ => Throw;
     s3_post := s3_post world;
     bucket_put := bucket_put world;
     close_lead_put := close_lead_put world;
     close_note_post := close_note_post world;
     now_iso := now_iso world |}.

(** The connection to Close fails when the note is created. *)
Definition world_note_down : World :=
  {| monday_api := monday_api world;
     monday_file := monday_file world;
     close_files_upload := close_files_upload world;
     s3_post := s3_post world;
     bucket_put := bucket_put world;
     close_lead_put := close_lead_put world;
     close_note_post := fun _ _ => Throw;
     now_iso := now_iso world |}.

(** The bucket refuses the object. *)
Definition world_bucket_down : World :=
  {| monday_api := monday_api world;
     monday_file := monday_file world;
     close_files_upload := close_files_upload world;
     s3_post := s3_post world;
     bucket_put := fun _ => Throw;
     close_lead_put := close_lead_put world;
     close_note_post := close_note_post world;
     now_iso := now_iso world |}.

Definition post (body : value) : Request :=
  {| method := "POST"; json := Ok body |}.

Definition event_body (itemId : Z) : value :=
  VObj [("event", VObj [("columnId", VStr "files"); ("pulseId", VNum itemId)])].

End Sample.

(** ** Bodies, predicates and abbreviations used in the statements *)

Definition falsy_challenge_body : value :=
  VObj [("challenge", VNum 0); ("itemId", VNum 123)].

Definition challenge_body : value :=
  VObj [("challenge", VStr "3eZbrw1aBm2rZgRNFdxV2595E9CY3gmdALWMmHkvFXO7tYXAYM8P");
        ("event", VObj [("pulseId", VNum 123)])].

Definition zero_id_body : value :=
  VObj [("event", VObj [("columnId", VStr "files"); ("pulseId", VNum 0);
                        ("itemId", VStr "")])].

Definition removed_file_body : value :=
  VObj [("event", VObj [("columnId", VStr "files"); ("pulseId", VNum 123);
                        ("value", VStr empty_files_text)])].


Definition no_column_body : value :=
  VObj [("event", VObj [("pulseId", VNum 123)])].

(** What getMondayItemData returns for the first item of the answer. *)
Definition item_data_of (env : Env) (it : item) : item_data :=
  let closeLeadIdColumn :=
    find (fun col => String.eqb (cv_id col) (CLOSE_LEAD_ID_COLUMN_ID env))
         (column_values it) in
  let text := match closeLeadIdColumn with Some col => cv_text col | None => None end in
  let display_value :=
    match closeLeadIdColumn with Some col => cv_display_value col | None => None end in
  {| name := item_name it;
     closeLeadId :=
       or_str (option_map Str.trim (or_str (or_str text display_value) None)) None;
     assets := match sort newest_first (item_assets it) with
               | a :: _ => [a]
               | [] => []
               end |}.


Definition is_lead_put (c : call) : Prop :=
  match c with
  | CloseLeadPut _ _ _ => True
  | _ => False
  end.

(** The request that creates the note for the asset [a]. *)
Definition note_call (leadId itemName : string) (a : asset) (closeFileUrl : string)
    (w : World) : call :=
  CloseNotePost leadId
    (note_text (asset_name a) itemName (hd "" (Str.split "T" (now_iso w))))
    closeFileUrl (asset_name a) (getMimeType (asset_name a)).

(** The asset [b] was not created after [a]. *)
Definition not_older (a b : asset) : Prop := created_at b <= created_at a.

(** Every outbound call of the computation [m] in the world [w] has the
    property [P]. *)
Definition calls_all (P : call -> Prop) {A : Type} (m : M A) (w : World) : Prop :=
  Forall P (snd (run m w)).

(** ** Predicates on runs, the stages of the pipeline, and further worlds *)

(** The computation [m] ends without an exception in the world [w]. *)
Definition returns {A : Type} (m : M A) (w : World) : Prop :=
  exists a, fst (run m w) = Ok a.

(** Every value the computation [m] can return in the world [w] has the
    property [Q]. *)
Definition returns_all {A : Type} (Q : A -> Prop) (m : M A) (w : World) : Prop :=
  forall a t, run m w = (Ok a, t) -> Q a.

Definition other_column_body : value :=
  VObj [("event", VObj [("columnId", VStr "status"); ("pulseId", VNum 123)])].

(** An event without identifier beside a top-level one. *)
Definition event_and_top_body : value :=
  VObj [("event", VObj [("columnId", VStr "files")]); ("itemId", VNum 123);
        ("payload", VObj [("itemId", VNum 123)])].

(** A second file created at the same instant as [Sample.asset2]. *)
Definition asset2_copy : asset :=
  {| asset_id := "4"; asset_name := "copy.pdf";
     public_url := "https://files.example/4"; created_at := 3000 |}.

Definition item_same_time : item :=
  {| item_name := "Jane Doe";
     column_values :=
       [ {| cv_id := "lead"; cv_text := Some "lead_42"; cv_display_value := None |} ];
     item_assets := [Sample.asset1; Sample.asset2; asset2_copy] |}.

Definition world_same_time : World :=
  {| monday_api := fun _ => Ok {| md_errors := None; md_items := [item_same_time] |};
     monday_file := monday_file Sample.world;
     close_files_upload := close_files_upload Sample.world;
     s3_post := s3_post Sample.world;
     bucket_put := bucket_put Sample.world;
     close_lead_put := close_lead_put Sample.world;
     close_note_post := close_note_post Sample.world;
     now_iso := now_iso Sample.world |}.

(** Every service answers, and none with what the worker takes for a
    success past the initialisation of the upload: the storage answers 200
    where 201 or 204 is expected, the bucket and the lead update fail, the
    note is refused. *)
Definition world_refusing : World :=
  {| monday_api := monday_api Sample.world;
     monday_file := monday_file Sample.world;
     close_files_upload := close_files_upload Sample.world;
     s3_post := fun _ => Ok 200;
     bucket_put := fun _ => Throw;
     close_lead_put := fun _ _ => Throw;
     close_note_post := fun _ _ => Ok 403;
     now_iso := now_iso Sample.world |}.

(** The place of a call in the pipeline. *)
Definition stage (c : call) : nat :=
  match c with
  | MondayQuery _ _ _ => 0
  | MondayDownload _ => 1
  | CloseFileInit _ _ => 2
  | S3Post _ _ _ _ _ => 3
  | BucketPut _ _ _ => 4
  | CloseLeadPut _ _ _ => 5
  | CloseNotePost _ _ _ _ _ => 6
  end.

(** The calls [t] are in the order of the pipeline, each stage at most
    once, and all of stages from [lo] up to but not including [hi]. *)
Definition in_stages (lo hi : nat) (t : list call) : Prop :=
  (lo <= hi)%nat
  /\ StronglySorted lt (map stage t)
  /\ Forall (fun c => (lo <= stage c < hi)%nat) t.

Definition within (lo hi : nat) {A : Type} (m : M A) (w : World) : Prop :=
  in_stages lo hi (snd (run m w)).

(** A request to Close names a lead and carries an address, neither
    empty. *)
Definition close_call_filled (c : call) : Prop :=
  match c with
  | CloseLeadPut leadId _ r2Url => leadId <> "" /\ r2Url <> ""
  | CloseNotePost leadId _ fileUrl _ _ => leadId <> "" /\ fileUrl <> ""
  | _ => True
  end.


(** The lead column of [it] gives no identifier: it is not among the column
    values, or has neither text nor display value, or has a text made of
    white space only. *)
Definition no_lead_id (env : Env) (it : item) : Prop :=
  match find (fun col => String.eqb (cv_id col) (CLOSE_LEAD_ID_COLUMN_ID env))
             (column_values it) with
  | None => True
  | Some col =>
      (truthy_str (cv_text col) = false /\ truthy_str (cv_display_value col) = false)
      \/ (exists s, cv_text col = Some s /\ s <> "" /\ Str.trim s = "")
  end.

Definition item_blank_lead : item :=
  {| item_name := "Jane Doe";
     column_values :=
       [ {| cv_id := "lead"; cv_text := Some "   ";
            cv_display_value := Some "lead_42" |} ];
     item_assets := [Sample.asset1] |}.

Definition world_blank_lead : World :=
  {| monday_api := fun _ => Ok {| md_errors := None; md_items := [item_blank_lead] |};
     monday_file := monday_file Sample.world;
     close_files_upload := close_files_upload Sample.world;
     s3_post := s3_post Sample.world;
     bucket_put := bucket_put Sample.world;
     close_lead_put := close_lead_put Sample.world;
     close_note_post := close_note_post Sample.world;
     now_iso := now_iso Sample.world |}.

(** The download is refused. *)
Definition world_no_download : World :=
  {| monday_api := monday_api Sample.world;
     monday_file := fun _ => Ok (403, []);
     close_files_upload := close_files_upload Sample.world;
     s3_post := s3_post Sample.world;
     bucket_put := bucket_put Sample.world;
     close_lead_put := close_lead_put Sample.world;
     close_note_post := close_note_post Sample.world;
     now_iso := now_iso Sample.world |}.

(** The update of the lead fails. *)
Definition world_lead_put_down : World :=
  {| monday_api := monday_api Sample.world;
     monday_file := monday_file Sample.world;
     close_files_upload := close_files_upload Sample.world;
     s3_post := s3_post Sample.world;
     bucket_put := bucket_put Sample.world;
     close_lead_put := fun _ _ => Throw;
     close_note_post := close_note_post Sample.world;
     now_iso := now_iso Sample.world |}.

(** The character [c] occurs in [s]. *)
Fixpoint contains (c : ascii) (s : string) : bool :=
  match s with
  | EmptyString => false
  | String c' s' => Ascii.eqb c c' || contains c s'
  end.

(** An identifier that has no string form. *)
Definition unprintable_id_body : value :=
  VObj [("itemId", VObj [("toString", VNum 1)])].

(** A request to Close names the lead [leadId]. *)
Definition names_lead (leadId : string) (c : call) : Prop :=
  match c with
  | CloseLeadPut l _ _ => l = leadId
  | CloseNotePost l _ _ _ _ => l = leadId
  | _ => True
  end.

(** An item without assets whose lead column is a mirror column: no text,
    the identifier in the display value. *)
Definition item_no_assets : item :=
  {| item_name := "Jane Doe";
     column_values :=
       [ {| cv_id := "lead"; cv_text := None; cv_display_value := Some " lead_42 " |} ];
     item_assets := [] |}.

Definition world_no_assets : World :=
  {| monday_api := fun _ => Ok {| md_errors := None; md_items := [item_no_assets] |};
     monday_file := monday_file Sample.world;
     close_files_upload := close_files_upload Sample.world;
     s3_post := s3_post Sample.world;
     bucket_put := bucket_put Sample.world;
     close_lead_put := close_lead_put Sample.world;
     close_note_post := close_note_post Sample.world;
     now_iso := now_iso Sample.world |}.



(** * Properties *)

(** ** The string and value functions on examples *)

Example getMimeType_pdf : getMimeType "report.PDF" = PStr "application/pdf".
Proof. reflexivity. Qed.

Example getMimeType_unknown : getMimeType "report.xyz" = PStr "application/octet-stream".
Proof. reflexivity. Qed.

Example encode_space : Str.encodeURIComponent "a b.pdf" = "a%20b.pdf".
Proof. reflexivity. Qed.

Example of_Z_123 : Str.of_Z 123 = "123".
Proof. reflexivity. Qed.

Example trim_example : Str.trim ("  L1 " ++ Str.of_bytes [194; 160; 10]%nat) = "L1".
Proof. reflexivity. Qed.

Example to_string_array :
  to_string (VArr [VNum 1; VNull; VArr [VStr "a"; VNum (-2)]]) = Ok "1,,a,-2".
Proof. reflexivity. Qed.

(** ** Reasoning about property reads and runs of the handler *)

Ltac unfold_handler :=
  unfold run, bind, ret, lift, perform, try_catch, ask in *.

Lemma run_bind {A B : Type} (m : M A) (f : A -> M B) (w : World) :
  run (bind m f) w
  = match run m w with
    | (Ok a, t) => let (r, t') := run (f a) w in (r, (t ++ t')%list)
    | (Throw, t) => (Throw, t)
    end.
Proof. reflexivity. Qed.

Lemma run_ret {A : Type} (a : A) (w : World) : run (ret a) w = (Ok a, []).
Proof. reflexivity. Qed.

Lemma run_lift {A : Type} (o : outcome A) (w : World) : run (lift o) w = (o, []).
Proof. reflexivity. Qed.

Lemma run_perform {A : Type} (c : call) (answer : World -> outcome A) (w : World) :
  run (perform c answer) w = (answer w, [c]).
Proof. reflexivity. Qed.

Lemma run_try_catch {A : Type} (m h : M A) (w : World) :
  run (try_catch m h) w
  = match run m w with
    | (Ok a, t) => (Ok a, t)
    | (Throw, t) => let (r, t') := run h w in (r, (t ++ t')%list)
    end.
Proof. reflexivity. Qed.

Lemma get_ok_any (v : value) (k k' : string) (x : value) :
  get v k = Ok x -> exists y, get v k' = Ok y.
Proof.
  destruct v; simpl; intros H; try discriminate; eauto.
Qed.

Lemma truthy_get_ok (v : value) (k : string) :
  truthy v = true -> exists y, get v k = Ok y.
Proof.
  destruct v; simpl; intros H; try discriminate; eauto.
Qed.

(** The handler up to the extraction, for a request whose body carries no
    truthy challenge. *)
Lemma fetch_no_challenge (request : Request) (env : Env) (w : World)
    (body c : value) :
  method request = "POST" ->
  json request = Ok body ->
  get body "challenge" = Ok c ->
  truthy c = false ->
  run (fetch request env) w =
  run (try_catch
         (e <- lift (extract_item_id body env) ;;
          match e with
          | Reply r => ret r
          | ItemId itemId =>
              if negb (truthy itemId)
              then ret (text_response "No item ID found in payload" 200)
              else process_item itemId env
          end)
         (ret (text_response "Internal error" 500))) w.
Proof.
  intros Hm Hj Hc Hf.
  unfold fetch. rewrite Hm. simpl.
  unfold_handler. rewrite Hj, Hc. simpl. rewrite Hf. simpl.
  destruct (extract_item_id body env) as [e|]; simpl; [|reflexivity].
  destruct e as [r|itemId]; simpl; [reflexivity|].
  destruct (truthy itemId); simpl; [|reflexivity].
  destruct (process_item itemId env w) as [[r|] t]; rewrite ?app_nil_l; reflexivity.
Qed.

(** ** The challenge *)

(** C5, as stated, fails: a body whose challenge field holds the falsy
    value 0 is not answered with the echo; the handler goes on, queries
    Monday for the item and here answers 500. *)
Lemma fetch_falsy_challenge_not_echoed :
  get falsy_challenge_body "challenge" = Ok (VNum 0)
  /\ run (fetch (Sample.post falsy_challenge_body) Sample.env)
         Sample.world_monday_errors
     = (Ok (text_response "Failed to fetch item data" 500),
        [MondayQuery "lead" "123" "files"])
  /\ text_response "Failed to fetch item data" 500 <> challenge_response (VNum 0).
Proof.
  split; [reflexivity|]. split; [reflexivity|]. discriminate.
Qed.

(** C5, amended: for every POST body whose challenge field holds a truthy
    value X, the response is exactly the JSON object with the one field
    challenge of value X, with status 200 and the JSON content type,
    whatever else the body holds, and no outbound call is made. *)
Theorem fetch_challenge_echo (request : Request) (env : Env) (w : World)
    (body X : value) :
  method request = "POST" ->
  json request = Ok body ->
  get body "challenge" = Ok X ->
  truthy X = true ->
  run (fetch request env) w = (Ok (challenge_response X), []).
Proof.
  intros Hm Hj Hc Ht.
  unfold fetch. rewrite Hm. simpl.
  unfold_handler. rewrite Hj, Hc. simpl. rewrite Ht. reflexivity.
Qed.

Lemma fetch_challenge_echo_witness :
  run (fetch (Sample.post challenge_body) Sample.env) Sample.world
  = (Ok (challenge_response
           (VStr "3eZbrw1aBm2rZgRNFdxV2595E9CY3gmdALWMmHkvFXO7tYXAYM8P")), []).
Proof.
  apply (fetch_challenge_echo (Sample.post challenge_body) Sample.env
           Sample.world challenge_body
           (VStr "3eZbrw1aBm2rZgRNFdxV2595E9CY3gmdALWMmHkvFXO7tYXAYM8P"));
    reflexivity.
Defined.

(** ** The item identifier *)

(** C10: when the extracted item identifier is falsy (0, the empty string,
    false, null, or undefined as for a missing one), the handler answers 200
    with the text No item ID found in payload and makes no outbound call. *)
Theorem fetch_falsy_item_id (request : Request) (env : Env) (w : World)
    (body c itemId : value) :
  method request = "POST" ->
  json request = Ok body ->
  get body "challenge" = Ok c ->
  truthy c = false ->
  extract_item_id body env = Ok (ItemId itemId) ->
  truthy itemId = false ->
  run (fetch request env) w
  = (Ok (text_response "No item ID found in payload" 200), []).
Proof.
  intros Hm Hj Hc Hf He Hi.
  rewrite (fetch_no_challenge request env w body c Hm Hj Hc Hf).
  unfold_handler. rewrite He. simpl. rewrite Hi. reflexivity.
Qed.

Lemma fetch_falsy_item_id_witness :
  extract_item_id zero_id_body Sample.env = Ok (ItemId (VStr ""))
  /\ run (fetch (Sample.post zero_id_body) Sample.env) Sample.world
     = (Ok (text_response "No item ID found in payload" 200), []).
Proof.
  split; [reflexivity|].
  apply (fetch_falsy_item_id (Sample.post zero_id_body) Sample.env Sample.world
           zero_id_body VUndefined (VStr "")); reflexivity.
Defined.

(** A missing identifier is the falsy value [undefined]. *)
Example extract_missing_id :
  extract_item_id (VObj [("event", VObj [("columnId", VStr "files")])]) Sample.env
  = Ok (ItemId VUndefined).
Proof. reflexivity. Qed.

(** ** The removed file *)

(** C6: for every event whose value is the text of the empty object or of
    the empty files array, the handler answers with status 200 and makes no
    outbound call. *)
Theorem fetch_removed_file (request : Request) (env : Env) (w : World)
    (body event : value) (v : string) :
  method request = "POST" ->
  json request = Ok body ->
  get body "event" = Ok event ->
  truthy event = true ->
  get event "value" = Ok (VStr v) ->
  v = empty_object_text \/ v = empty_files_text ->
  exists r, run (fetch request env) w = (Ok r, []) /\ status r = 200.
Proof.
  intros Hm Hj He Ht Hv Hs.
  destruct (get_ok_any body "event" "challenge" event He) as [c Hc].
  destruct (truthy c) eqn:Hc'.
  - exists (challenge_response c). split; [|reflexivity].
    unfold fetch. rewrite Hm. simpl.
    unfold_handler. rewrite Hj, Hc. simpl. rewrite Hc'. reflexivity.
  - rewrite (fetch_no_challenge request env w body c Hm Hj Hc Hc').
    destruct (truthy_get_ok event "columnId" Ht) as [col Hcol].
    unfold extract_item_id. rewrite He. simpl. rewrite Ht, Hcol. simpl.
    destruct (truthy col && negb (strict_eq_str col (NAFA_FILE_COLUMN_ID env))).
    + eexists. split; reflexivity.
    + unfold event_after_column_filter. rewrite Hv. simpl.
      assert (Hrm : negb (String.eqb v "")
                    && (String.eqb v empty_object_text
                        || String.eqb v empty_files_text) = true).
      { destruct Hs; subst v; reflexivity. }
      rewrite Hrm. eexists. split; reflexivity.
Qed.

Lemma fetch_removed_file_witness :
  exists r, run (fetch (Sample.post removed_file_body) Sample.env) Sample.world
            = (Ok r, []) /\ status r = 200.
Proof.
  apply (fetch_removed_file (Sample.post removed_file_body) Sample.env
           Sample.world removed_file_body
           (VObj [("columnId", VStr "files"); ("pulseId", VNum 123);
                  ("value", VStr empty_files_text)])
           empty_files_text); try reflexivity.
  right. reflexivity.
Defined.

(** ** The content type *)

(** C8 fails on the code at two kinds of file names.  A name whose
    extension is a property that the table inherits from Object.prototype
    gets that inherited member, which is not a string at all; and a name
    without a dot is taken whole as its extension, so the bare name pdf gets
    the PDF type.  Both should get application/octet-stream. *)
Theorem getMimeType_not_octet_stream :
  getMimeType "backup.constructor" = PInherited "constructor"
  /\ getMimeType "backup.__proto__" = PInherited "__proto__"
  /\ getMimeType "pdf" = PStr "application/pdf"
  /\ Str.split "." "pdf" = ["pdf"].
Proof. repeat split. Qed.

(** The part of C8 that holds: the look-up is by the lowered extension. *)
Lemma getMimeType_table (filename ext mime : string) :
  extension filename = Some ext ->
  assoc ext mimeTypes = Some mime ->
  getMimeType filename = PStr mime.
Proof.
  intros He Ha. unfold getMimeType, get_literal. rewrite He, Ha.
  assert (Hne : String.eqb mime "" = false).
  { revert Ha. unfold mimeTypes. simpl.
    repeat (destruct (String.eqb ext _);
            [intros H; injection H as <-; reflexivity|]).
    discriminate. }
  simpl. rewrite Hne. reflexivity.
Qed.

Lemma getMimeType_default (filename ext : string) :
  extension filename = Some ext ->
  assoc ext mimeTypes = None ->
  existsb (String.eqb ext) object_prototype = false ->
  getMimeType filename = PStr "application/octet-stream".
Proof.
  intros He Ha Hp. unfold getMimeType, get_literal. rewrite He, Ha, Hp. reflexivity.
Qed.

Example getMimeType_any_case :
  map getMimeType ["report.pdf"; "report.PDF"; "report.Pdf"; "report.pDF"]
  = repeat (PStr "application/pdf") 4.
Proof. reflexivity. Qed.

Example getMimeType_trailing_dot : getMimeType "report." = PStr "application/octet-stream".
Proof. reflexivity. Qed.

(** ** The mirror store *)

(** C7: the object is put under the key made of the item identifier, a
    slash and the file name as it is, and when the put succeeds the result
    is the configured base address, a slash, the item identifier, a slash
    and the percent-encoded file name (when the put throws, the result is
    null). *)
Theorem uploadFileToR2_key_and_url (filename : string) (contentType : prop)
    (fileData : bytes) (itemId : value) (env : Env) (w : World) (id : string) :
  to_string itemId = Ok id ->
  run (uploadFileToR2 filename contentType fileData itemId env) w
  = (Ok match bucket_put w (id ++ "/" ++ filename) with
        | Ok _ =>
            Some (R2_PUBLIC_URL env ++ "/" ++ id ++ "/"
                  ++ Str.encodeURIComponent filename)
        | Throw => None
        end,
     [BucketPut (id ++ "/" ++ filename) fileData contentType]).
Proof.
  intros Hid. unfold uploadFileToR2. unfold_handler. rewrite Hid. simpl.
  destruct (bucket_put w _); reflexivity.
Qed.

Lemma uploadFileToR2_key_and_url_witness :
  to_string (VNum 123) = Ok "123"
  /\ run (uploadFileToR2 "a b.pdf" (PStr "application/pdf") [Byte.x25; Byte.x50]
            (VNum 123) Sample.env) Sample.world
     = (Ok (Some "https://r2.example/123/a%20b.pdf"),
        [BucketPut "123/a b.pdf" [Byte.x25; Byte.x50] (PStr "application/pdf")]).
Proof.
  split; [reflexivity|].
  exact (uploadFileToR2_key_and_url "a b.pdf" (PStr "application/pdf")
           [Byte.x25; Byte.x50] (VNum 123) Sample.env Sample.world "123" eq_refl).
Defined.

(** ** The item that Monday does not give *)

(** C1, as stated, fails: when Monday reports errors the handler answers
    with status 500, which is not a success status. *)
Lemma fetch_monday_errors_is_500 :
  run (getMondayItemData (VNum 123) Sample.env) Sample.world_monday_errors
  = (Ok None, [MondayQuery "lead" "123" "files"])
  /\ run (fetch (Sample.post (Sample.event_body 123)) Sample.env)
         Sample.world_monday_errors
     = (Ok (text_response "Failed to fetch item data" 500),
        [MondayQuery "lead" "123" "files"])
  /\ ok (status (text_response "Failed to fetch item data" 500)) = false.
Proof. repeat split. Qed.

Lemma getMondayItemData_absent (itemId : value) (env : Env) (w : World)
    (id : string) (data : monday_data) :
  to_string itemId = Ok id ->
  monday_api w id = Ok data ->
  md_errors data <> None \/ md_items data = [] ->
  run (getMondayItemData itemId env) w
  = (Ok None,
     [MondayQuery (CLOSE_LEAD_ID_COLUMN_ID env) id (NAFA_FILE_COLUMN_ID env)]).
Proof.
  intros Hid Hd Habs. unfold getMondayItemData. unfold_handler.
  rewrite Hid. simpl. rewrite Hd.
  destruct (md_errors data) as [errs|]; [reflexivity|].
  destruct Habs as [Habs|Habs]; [congruence|].
  rewrite Habs. reflexivity.
Qed.

(** C1, amended: when the Monday query reports errors or gives no item,
    getMondayItemData returns null and the invocation halts there, the
    query being its only outbound call; the handler answers with status 500
    and the text Failed to fetch item data. *)
Theorem fetch_item_data_absent (request : Request) (env : Env) (w : World)
    (body c itemId : value) (id : string) (data : monday_data) :
  method request = "POST" ->
  json request = Ok body ->
  get body "challenge" = Ok c ->
  truthy c = false ->
  extract_item_id body env = Ok (ItemId itemId) ->
  truthy itemId = true ->
  to_string itemId = Ok id ->
  monday_api w id = Ok data ->
  md_errors data <> None \/ md_items data = [] ->
  run (getMondayItemData itemId env) w
  = (Ok None,
     [MondayQuery (CLOSE_LEAD_ID_COLUMN_ID env) id (NAFA_FILE_COLUMN_ID env)])
  /\ run (fetch request env) w
     = (Ok (text_response "Failed to fetch item data" 500),
        [MondayQuery (CLOSE_LEAD_ID_COLUMN_ID env) id (NAFA_FILE_COLUMN_ID env)]).
Proof.
  intros Hm Hj Hc Hf He Ht Hid Hd Habs.
  pose proof (getMondayItemData_absent itemId env w id data Hid Hd Habs) as Hg.
  split; [exact Hg|].
  rewrite (fetch_no_challenge request env w body c Hm Hj Hc Hf).
  rewrite run_try_catch, run_bind, run_lift, He. cbv iota beta.
  rewrite Ht. cbv iota beta. simpl negb. cbv iota.
  unfold process_item.
  rewrite run_bind, run_lift, Hid. cbv iota beta.
  rewrite run_bind, Hg. reflexivity.
Qed.

Lemma fetch_item_data_absent_witness :
  run (getMondayItemData (VNum 123) Sample.env) Sample.world_monday_errors
  = (Ok None, [MondayQuery "lead" "123" "files"])
  /\ run (fetch (Sample.post (Sample.event_body 123)) Sample.env)
         Sample.world_monday_errors
     = (Ok (text_response "Failed to fetch item data" 500),
        [MondayQuery "lead" "123" "files"]).
Proof.
  refine (fetch_item_data_absent (Sample.post (Sample.event_body 123)) Sample.env
            Sample.world_monday_errors (Sample.event_body 123) VUndefined
            (VNum 123) "123"
            {| md_errors := Some ["Complexity budget exhausted"]; md_items := [] |}
            eq_refl eq_refl eq_refl eq_refl eq_refl eq_refl eq_refl eq_refl _).
  left. discriminate.
Defined.

(** ** A failing step of the loop *)

(** C2 fails on the code: uploadFileToClose has no try around its fetch
    calls, so when the connection to Close fails during the loop over the
    assets the exception reaches the handler's catch and the invocation
    ends with status 500. *)
Theorem fetch_close_down_is_500 :
  run (fetch (Sample.post (Sample.event_body 123)) Sample.env)
      Sample.world_close_down
  = (Ok (text_response "Internal error" 500),
     [ MondayQuery "lead" "123" "files";
       MondayDownload "https://files.example/2";
       CloseFileInit "a b.pdf" (PStr "application/pdf") ]).
Proof. reflexivity. Qed.

(** The same when it is the request of createCloseNote that fails, after
    the file has been uploaded and the custom field written. *)
Example fetch_note_down_is_500 :
  fst (run (fetch (Sample.post (Sample.event_body 123)) Sample.env)
           Sample.world_note_down)
  = Ok (text_response "Internal error" 500).
Proof. reflexivity. Qed.

(** Where the siblings catch: a failing download skips the asset, and the
    invocation ends with status 200. *)
Example fetch_download_fails_is_200 :
  run (fetch (Sample.post (Sample.event_body 123)) Sample.env)
      {| monday_api := monday_api Sample.world;
         monday_file := fun _ => Throw;
         close_files_upload := close_files_upload Sample.world;
         s3_post := s3_post Sample.world;
         bucket_put := bucket_put Sample.world;
         close_lead_put := close_lead_put Sample.world;
         close_note_post := close_note_post Sample.world;
         now_iso := now_iso Sample.world |}
  = (Ok (text_response "OK" 200),
     [ MondayQuery "lead" "123" "files";
       MondayDownload "https://files.example/2" ]).
Proof. reflexivity. Qed.

(** ** The most recent asset *)

(** The sort rearranges the array, and by [newest_first] puts it in the
    order of decreasing creation time. *)
Lemma insert_by_perm {A : Type} (cmp : A -> A -> Z) (x : A) (l : list A) :
  Permutation (x :: l) (insert_by cmp x l).
Proof.
  induction l as [|y l IH]; simpl; [apply Permutation_refl|].
  destruct (cmp x y <=? 0); [apply Permutation_refl|].
  apply perm_trans with (y :: x :: l); [apply perm_swap|].
  apply perm_skip. exact IH.
Qed.

Lemma sort_perm {A : Type} (cmp : A -> A -> Z) (l : list A) :
  Permutation l (sort cmp l).
Proof.
  induction l as [|x l IH]; simpl; [apply perm_nil|].
  apply perm_trans with (x :: sort cmp l); [apply perm_skip; exact IH|].
  apply insert_by_perm.
Qed.

Lemma insert_newest_first_sorted (x : asset) (l : list asset) :
  StronglySorted not_older l -> StronglySorted not_older (insert_by newest_first x l).
Proof.
  induction 1 as [|y l Hs IH Hy]; simpl.
  - constructor; constructor.
  - unfold newest_first at 1.
    destruct (created_at y - created_at x <=? 0) eqn:Hc.
    + apply Z.leb_le in Hc. constructor.
      * constructor; assumption.
      * constructor; [unfold not_older; lia|].
        rewrite Forall_forall in *. intros b Hb.
        specialize (Hy b Hb). unfold not_older in *. lia.
    + apply Z.leb_gt in Hc. constructor; [exact IH|].
      rewrite Forall_forall in *. intros b Hb.
      apply (Permutation_in _ (Permutation_sym (insert_by_perm newest_first x l))) in Hb.
      destruct Hb as [<-|Hb]; [unfold not_older; lia | exact (Hy b Hb)].
Qed.

Lemma sort_newest_first_sorted (l : list asset) :
  StronglySorted not_older (sort newest_first l).
Proof.
  induction l as [|x l IH]; simpl; [constructor|].
  apply insert_newest_first_sorted. exact IH.
Qed.



Lemma getMondayItemData_present (itemId : value) (env : Env) (w : World)
    (id : string) (data : monday_data) (it : item) (rest : list item) :
  to_string itemId = Ok id ->
  monday_api w id = Ok data ->
  md_errors data = None ->
  md_items data = it :: rest ->
  run (getMondayItemData itemId env) w
  = (Ok (Some (item_data_of env it)),
     [MondayQuery (CLOSE_LEAD_ID_COLUMN_ID env) id (NAFA_FILE_COLUMN_ID env)]).
Proof.
  intros Hid Hd He Hi. unfold getMondayItemData.
  rewrite run_bind, run_lift, Hid. cbv iota beta.
  rewrite run_bind, run_perform, Hd. cbv iota beta.
  rewrite He, Hi. reflexivity.
Qed.

(** A property of every call of a computation follows the structure of the
    computation. *)
Section Calls.

Variable P : call -> Prop.

Lemma calls_ret {A : Type} (a : A) (w : World) : calls_all P (ret a) w.
Proof. apply Forall_nil. Qed.

Lemma calls_lift {A : Type} (o : outcome A) (w : World) : calls_all P (lift o) w.
Proof. apply Forall_nil. Qed.

Lemma calls_ask (w : World) : calls_all P ask w.
Proof. apply Forall_nil. Qed.

Lemma calls_perform {A : Type} (c : call) (answer : World -> outcome A)
    (w : World) :
  P c -> calls_all P (perform c answer) w.
Proof. intros H. apply Forall_cons; [exact H | apply Forall_nil]. Qed.

Lemma calls_bind {A B : Type} (m : M A) (f : A -> M B) (w : World) :
  calls_all P m w ->
  (forall a t, run m w = (Ok a, t) -> calls_all P (f a) w) ->
  calls_all P (bind m f) w.
Proof.
  unfold calls_all. rewrite run_bind.
  destruct (run m w) as [[a|] t] eqn:Hm; simpl; intros Ht Hf; [|exact Ht].
  specialize (Hf a t eq_refl).
  destruct (run (f a) w) as [r t']. simpl in *.
  apply Forall_app. split; assumption.
Qed.

Lemma calls_try_catch {A : Type} (m h : M A) (w : World) :
  calls_all P m w -> calls_all P h w -> calls_all P (try_catch m h) w.
Proof.
  unfold calls_all. rewrite run_try_catch.
  destruct (run m w) as [[a|] t]; simpl; intros Ht Hh; [exact Ht|].
  destruct (run h w) as [r t']. simpl in *.
  apply Forall_app. split; assumption.
Qed.

End Calls.

Ltac calls_step :=
  first
    [ apply calls_ret
    | apply calls_lift
    | apply calls_ask
    | apply calls_try_catch
    | apply calls_bind; [|intros ? ? ?]
    | apply calls_perform
    | match goal with
      | |- calls_all _ (match ?x with _ => _ end) _ => destruct x
      end ].

Ltac calls := repeat calls_step.

Lemma run_lift_ok {A : Type} (o : outcome A) (w : World) (a : A) (t : list call) :
  run (lift o) w = (Ok a, t) -> o = Ok a.
Proof. rewrite run_lift. congruence. Qed.


Lemma for_each_calls (P : call -> Prop) {A : Type} (l : list A)
    (body : A -> M unit) (w : World) :
  (forall x, In x l -> calls_all P (body x) w) ->
  calls_all P (for_each l body) w.
Proof.
  induction l as [|x l IH]; simpl; intros H.
  - apply calls_ret.
  - apply calls_bind.
    + apply H. left. reflexivity.
    + intros _ _ _. apply IH. intros y Hy. apply H. right. exact Hy.
Qed.




Example latest_asset_is_the_second :
  option_map assets
    (match fst (run (getMondayItemData (VNum 123) Sample.env) Sample.world) with
     | Ok d => d
     | Throw => None
     end)
  = Some [Sample.asset2].
Proof. reflexivity. Qed.

(** ** The mirror store fails *)

Lemma downloadMondayFile_no_lead_put (publicUrl : string) (w : World) :
  calls_all (fun c => ~ is_lead_put c) (downloadMondayFile publicUrl) w.
Proof. unfold downloadMondayFile. calls; simpl; auto. Qed.

Lemma uploadFileToClose_no_lead_put (filename : string) (contentType : prop)
    (fileData : bytes) (env : Env) (w : World) :
  calls_all (fun c => ~ is_lead_put c)
            (uploadFileToClose filename contentType fileData env) w.
Proof. unfold uploadFileToClose. calls; simpl; auto. Qed.

Lemma uploadFileToR2_no_lead_put (filename : string) (contentType : prop)
    (fileData : bytes) (itemId : value) (env : Env) (w : World) :
  calls_all (fun c => ~ is_lead_put c)
            (uploadFileToR2 filename contentType fileData itemId env) w.
Proof. unfold uploadFileToR2. calls; simpl; auto. Qed.

(** C4: when the upload to Close succeeds and the upload to the mirror
    store returns null, the turn of the loop makes the calls of the
    download, of the two uploads and then the request that creates the note
    with the address of the file at Close, and no request that updates the
    custom field. *)
Theorem process_asset_mirror_fails (leadId itemName : string) (itemId : value)
    (env : Env) (a : asset) (w : World) (fileData : bytes)
    (closeFileUrl : string) (t0 t1 t2 : list call) :
  run (downloadMondayFile (public_url a)) w = (Ok (Some fileData), t0) ->
  run (uploadFileToClose (asset_name a) (getMimeType (asset_name a)) fileData env) w
  = (Ok (Some closeFileUrl), t1) ->
  run (uploadFileToR2 (asset_name a) (getMimeType (asset_name a)) fileData itemId env) w
  = (Ok None, t2) ->
  snd (run (process_asset leadId itemName itemId env a) w)
  = (t0 ++ t1 ++ t2 ++ [note_call leadId itemName a closeFileUrl w])%list
  /\ forall c, In c (snd (run (process_asset leadId itemName itemId env a) w)) ->
               ~ is_lead_put c.
Proof.
  intros H0 H1 H2.
  assert (Heq : snd (run (process_asset leadId itemName itemId env a) w)
                = (t0 ++ t1 ++ t2 ++ [note_call leadId itemName a closeFileUrl w])%list).
  { unfold process_asset.
    rewrite run_bind, H0. cbv iota beta.
    rewrite run_bind, H1. cbv iota beta.
    rewrite run_bind, H2. cbv iota beta.
    rewrite run_bind, run_ret. cbv iota beta.
    rewrite run_bind. unfold createCloseNote at 1.
    rewrite run_bind. unfold ask at 1. unfold run at 1. cbv iota beta.
    rewrite run_bind, run_perform. unfold note_call.
    destruct (close_note_post w leadId closeFileUrl) as [st|]; simpl;
      [destruct (negb (ok st)); simpl|]; rewrite ?app_nil_r; reflexivity. }
  split; [exact Heq|].
  rewrite Heq. intros c Hc.
  pose proof (downloadMondayFile_no_lead_put (public_url a) w) as P0.
  pose proof (uploadFileToClose_no_lead_put (asset_name a)
                (getMimeType (asset_name a)) fileData env w) as P1.
  pose proof (uploadFileToR2_no_lead_put (asset_name a)
                (getMimeType (asset_name a)) fileData itemId env w) as P2.
  unfold calls_all in P0, P1, P2. rewrite H0 in P0. rewrite H1 in P1.
  rewrite H2 in P2. simpl in P0, P1, P2.
  rewrite Forall_forall in P0, P1, P2.
  repeat (apply in_app_or in Hc; destruct Hc as [Hc|Hc]); auto.
  destruct Hc as [<-|[]]. simpl. auto.
Qed.

Lemma process_asset_mirror_fails_witness :
  snd (run (process_asset "lead_42" "Jane Doe" (VNum 123) Sample.env Sample.asset2)
           Sample.world_bucket_down)
  = [ MondayDownload "https://files.example/2";
      CloseFileInit "a b.pdf" (PStr "application/pdf");
      S3Post "https://s3.example/upload" [("key", "k1")] "a b.pdf"
             (PStr "application/pdf") [Byte.x25; Byte.x50];
      BucketPut "123/a b.pdf" [Byte.x25; Byte.x50] (PStr "application/pdf");
      CloseNotePost "lead_42" (note_text "a b.pdf" "Jane Doe" "2024-05-06")
                    "https://close.example/file/9" "a b.pdf"
                    (PStr "application/pdf") ].
Proof.
  exact (proj1 (process_asset_mirror_fails "lead_42" "Jane Doe" (VNum 123)
                  Sample.env Sample.asset2 Sample.world_bucket_down
                  [Byte.x25; Byte.x50] "https://close.example/file/9"
                  [MondayDownload "https://files.example/2"]
                  [CloseFileInit "a b.pdf" (PStr "application/pdf");
                   S3Post "https://s3.example/upload" [("key", "k1")] "a b.pdf"
                          (PStr "application/pdf") [Byte.x25; Byte.x50]]
                  [BucketPut "123/a b.pdf" [Byte.x25; Byte.x50]
                             (PStr "application/pdf")]
                  eq_refl eq_refl eq_refl)).
Defined.

(** * Further properties of the handler and its helpers *)

(** ** Computations that end without an exception *)

Lemma returns_ret {A : Type} (a : A) (w : World) : returns (ret a) w.
Proof. exists a. reflexivity. Qed.





Lemma returns_try_catch {A : Type} (m h : M A) (w : World) :
  returns h w -> returns (try_catch m h) w.
Proof.
  intros [b Hb]. unfold returns. rewrite run_try_catch.
  destruct (run m w) as [[a|] t]; simpl; [exists a; reflexivity|].
  destruct (run h w) as [r t']. simpl in *. exists b. exact Hb.
Qed.

Lemma returns_all_bind {A B : Type} (Q : B -> Prop) (m : M A) (f : A -> M B)
    (w : World) :
  (forall a t, run m w = (Ok a, t) -> returns_all Q (f a) w) ->
  returns_all Q (bind m f) w.
Proof.
  intros Hf b t. rewrite run_bind.
  destruct (run m w) as [[a|] t0] eqn:Hm; [|discriminate].
  specialize (Hf a t0 eq_refl).
  destruct (run (f a) w) as [r t'] eqn:Hr. intros H. injection H as -> _.
  exact (Hf b t' Hr).
Qed.

Lemma returns_all_ret {A : Type} (Q : A -> Prop) (a : A) (w : World) :
  Q a -> returns_all Q (ret a) w.
Proof. intros H b t Hb. rewrite run_ret in Hb. injection Hb as <- _. exact H. Qed.

Lemma returns_all_try_catch {A : Type} (Q : A -> Prop) (m h : M A) (w : World) :
  returns_all Q m w -> returns_all Q h w -> returns_all Q (try_catch m h) w.
Proof.
  intros Hm Hh b t. rewrite run_try_catch.
  destruct (run m w) as [[a|] t0] eqn:Em.
  - intros H. injection H as <- _. exact (Hm a t0 Em).
  - destruct (run h w) as [r t'] eqn:Eh. intros H. injection H as -> _.
    exact (Hh b t' Eh).
Qed.

Lemma downloadMondayFile_returns (publicUrl : string) (w : World) :
  returns (downloadMondayFile publicUrl) w.
Proof.
  unfold downloadMondayFile.
  destruct (String.eqb publicUrl ""); [apply returns_ret|].
  apply returns_try_catch, returns_ret.
Qed.

Lemma updateCloseLeadField_returns (leadId r2Url : string) (env : Env) (w : World) :
  returns (updateCloseLeadField leadId r2Url env) w.
Proof. apply returns_try_catch, returns_ret. Qed.

Lemma uploadFileToR2_returns (filename : string) (contentType : prop)
    (fileData : bytes) (itemId : value) (env : Env) (w : World) :
  returns (uploadFileToR2 filename contentType fileData itemId env) w.
Proof. apply returns_try_catch, returns_ret. Qed.

(** X16: the three helpers that wrap their work in try and catch never
    throw, whatever the outside answers: a rejected fetch or put, or an
    identifier without a string form, becomes the null or false result. *)
Theorem catching_helpers_return (publicUrl leadId r2Url filename : string)
    (contentType : prop) (fileData : bytes) (itemId : value) (env : Env)
    (w : World) :
  returns (downloadMondayFile publicUrl) w
  /\ returns (updateCloseLeadField leadId r2Url env) w
  /\ returns (uploadFileToR2 filename contentType fileData itemId env) w.
Proof.
  split; [|split].
  - apply downloadMondayFile_returns.
  - apply updateCloseLeadField_returns.
  - apply uploadFileToR2_returns.
Qed.

(** ** The responses of the handler *)

Ltac destruct_in H :=
  repeat match type of H with
         | context [match ?x with _ => _ end] => destruct x eqn:?; simpl in H
         end.

Lemma event_after_column_filter_reply (event : value) (r : Response) :
  event_after_column_filter event = Ok (Reply r) ->
  r = text_response "File was removed, skipping" 200.
Proof.
  unfold event_after_column_filter, obind, or_else. intros H.
  destruct_in H; congruence.
Qed.

Lemma extract_item_id_reply (body : value) (env : Env) (r : Response) :
  extract_item_id body env = Ok (Reply r) ->
  r = text_response "Ignoring non-NAFA column change" 200
  \/ r = text_response "File was removed, skipping" 200.
Proof.
  unfold extract_item_id. unfold obind at 1. intros H.
  destruct (get body "event") as [event|]; [|discriminate].
  destruct (truthy event).
  - unfold obind at 1 in H.
    destruct (get event "columnId") as [columnId|]; [|discriminate].
    destruct (truthy columnId && negb (strict_eq_str columnId (NAFA_FILE_COLUMN_ID env))).
    + left. congruence.
    + right. apply (event_after_column_filter_reply event). exact H.
  - exfalso. unfold obind, or_else in H. destruct_in H; congruence.
Qed.

Lemma process_item_status (itemId : value) (env : Env) (w : World) :
  returns_all (fun r => status r = 200 \/ status r = 500)
              (process_item itemId env) w.
Proof.
  unfold process_item.
  apply returns_all_bind. intros _ _ _.
  apply returns_all_bind. intros [d|] _ _.
  - destruct (closeLeadId d) as [leadId|]; [|apply returns_all_ret; left; reflexivity].
    destruct (String.eqb leadId ""); [apply returns_all_ret; left; reflexivity|].
    destruct (assets d); [apply returns_all_ret; left; reflexivity|].
    apply returns_all_bind. intros _ _ _. apply returns_all_ret. left. reflexivity.
  - apply returns_all_ret. right. reflexivity.
Qed.

(** X1: the handler never throws: every request gets a response.  The
    status is 405, without any outbound call, exactly when the method is not
    POST, and 200 or 500 for a POST. *)
Theorem fetch_always_responds (request : Request) (env : Env) (w : World) :
  exists r t,
    run (fetch request env) w = (Ok r, t)
    /\ ((method request <> "POST" /\ r = text_response "Method not allowed" 405
         /\ t = [])
        \/ (method request = "POST" /\ (status r = 200 \/ status r = 500))).
Proof.
  unfold fetch. destruct (String.eqb (method request) "POST") eqn:Hm; simpl.
  - apply String.eqb_eq in Hm.
    match goal with |- context [run ?m w] => set (handler := m) end.
    assert (Hret : returns handler w) by apply returns_try_catch, returns_ret.
    assert (Hst : returns_all (fun r => status r = 200 \/ status r = 500) handler w).
    { apply returns_all_try_catch; [|apply returns_all_ret; right; reflexivity].
      apply returns_all_bind. intros body _ _.
      apply returns_all_bind. intros challenge _ _.
      destruct (truthy challenge); [apply returns_all_ret; left; reflexivity|].
      apply returns_all_bind. intros [r|itemId] t He.
      - apply returns_all_ret. left.
        apply run_lift_ok in He.
        destruct (extract_item_id_reply body env r He) as [-> | ->]; reflexivity.
      - destruct (negb (truthy itemId)); [apply returns_all_ret; left; reflexivity|].
        apply process_item_status. }
    destruct Hret as [r Hr]. destruct (run handler w) as [o t] eqn:Hrun.
    simpl in Hr. subst o. exists r, t. split; [reflexivity|].
    right. split; [exact Hm|]. exact (Hst r t Hrun).
  - apply String.eqb_neq in Hm. exists (text_response "Method not allowed" 405), [].
    split; [reflexivity|]. left. auto.
Qed.

(** X2: a POST whose body cannot be parsed as JSON, or is the JSON null,
    is answered with status 500 and the text Internal error, and no
    outbound call is made. *)
Theorem fetch_unreadable_body (request : Request) (env : Env) (w : World) :
  method request = "POST" ->
  json request = Throw \/ json request = Ok VNull ->
  run (fetch request env) w = (Ok (text_response "Internal error" 500), []).
Proof.
  intros Hm Hj. unfold fetch. rewrite Hm. simpl. unfold_handler.
  destruct Hj as [-> | ->]; reflexivity.
Qed.

Lemma fetch_unreadable_body_witness :
  run (fetch (Sample.post VNull) Sample.env) Sample.world
  = (Ok (text_response "Internal error" 500), []).
Proof.
  apply (fetch_unreadable_body (Sample.post VNull) Sample.env Sample.world eq_refl).
  right. reflexivity.
Defined.

(** X3: an event that names a column (a truthy columnId) other than the
    configured NAFA file column is answered with status 200 and the text
    Ignoring non-NAFA column change, and no outbound call is made. *)
Theorem fetch_other_column_ignored (request : Request) (env : Env) (w : World)
    (body c event columnId : value) :
  method request = "POST" ->
  json request = Ok body ->
  get body "challenge" = Ok c ->
  truthy c = false ->
  get body "event" = Ok event ->
  truthy event = true ->
  get event "columnId" = Ok columnId ->
  truthy columnId = true ->
  strict_eq_str columnId (NAFA_FILE_COLUMN_ID env) = false ->
  run (fetch request env) w
  = (Ok (text_response "Ignoring non-NAFA column change" 200), []).
Proof.
  intros Hm Hj Hc Hf He Ht Hcol Htc Hne.
  rewrite (fetch_no_challenge request env w body c Hm Hj Hc Hf).
  unfold extract_item_id. rewrite He. simpl. rewrite Ht, Hcol. simpl.
  rewrite Htc, Hne. reflexivity.
Qed.

Lemma fetch_other_column_ignored_witness :
  run (fetch (Sample.post other_column_body) Sample.env) Sample.world
  = (Ok (text_response "Ignoring non-NAFA column change" 200), []).
Proof.
  exact (fetch_other_column_ignored (Sample.post other_column_body) Sample.env
           Sample.world other_column_body VUndefined
           (VObj [("columnId", VStr "status"); ("pulseId", VNum 123)])
           (VStr "status")
           eq_refl eq_refl eq_refl eq_refl eq_refl eq_refl eq_refl eq_refl eq_refl).
Defined.

(** X4: the payload forms are tried in order and the first one present
    hides the others.  With a truthy event the identifier is read from the
    event alone, so a pulseId or itemId beside it (in payload or at the top)
    is never used; with no event and a truthy payload, the top-level
    itemId and pulseId are never used. *)
Theorem extract_item_id_first_form (body : value) (env : Env) :
  (forall event,
     get body "event" = Ok event -> truthy event = true ->
     extract_item_id body env = extract_item_id (VObj [("event", event)]) env)
  /\ (forall event payload,
        get body "event" = Ok event -> truthy event = false ->
        get body "payload" = Ok payload -> truthy payload = true ->
        extract_item_id body env
        = extract_item_id (VObj [("payload", payload)]) env).
Proof.
  split.
  - intros event He Ht. unfold extract_item_id. rewrite He. simpl. rewrite Ht.
    reflexivity.
  - intros event payload He Ht Hp Htp. unfold extract_item_id.
    rewrite He. simpl. rewrite Ht, Hp. simpl. rewrite Htp. reflexivity.
Qed.

Lemma extract_item_id_first_form_witness :
  extract_item_id event_and_top_body Sample.env
  = extract_item_id (VObj [("event", VObj [("columnId", VStr "files")])]) Sample.env.
Proof.
  exact (proj1 (extract_item_id_first_form event_and_top_body Sample.env)
           (VObj [("columnId", VStr "files")]) eq_refl eq_refl).
Defined.

(** The identifier at the top of that body is not found. *)
Example fetch_event_hides_top_item_id :
  run (fetch (Sample.post event_and_top_body) Sample.env) Sample.world
  = (Ok (text_response "No item ID found in payload" 200), []).
Proof. reflexivity. Qed.

(** ** The asset chosen among assets created at the same time *)

Lemma sort_nil_inv {A : Type} (cmp : A -> A -> Z) (l : list A) :
  sort cmp l = [] -> l = [].
Proof.
  intros H. pose proof (sort_perm cmp l) as Hp. rewrite H in Hp.
  apply Permutation_sym, Permutation_nil in Hp. exact Hp.
Qed.

Lemma sort_newest_first_first (l : list asset) :
  match sort newest_first l with
  | [] => l = []
  | a :: _ =>
      exists before after,
        l = (before ++ a :: after)%list
        /\ (forall b, In b before -> created_at b < created_at a)
        /\ (forall b, In b after -> created_at b <= created_at a)
  end.
Proof.
  induction l as [|x l IH]; simpl; [reflexivity|].
  destruct (sort newest_first l) as [|a r] eqn:Hs; simpl.
  - apply sort_nil_inv in Hs. subst l.
    exists [], []. split; [reflexivity|]. split; intros b [].
  - destruct IH as (before & after & Hl & Hb & Ha).
    unfold newest_first at 1.
    destruct (created_at a - created_at x <=? 0) eqn:Hc.
    + apply Z.leb_le in Hc. exists [], l. split; [reflexivity|].
      split; [intros b []|].
      intros b Hin. rewrite Hl in Hin. apply in_app_or in Hin.
      destruct Hin as [Hin|[<-|Hin]].
      * specialize (Hb b Hin). lia.
      * lia.
      * specialize (Ha b Hin). lia.
    + apply Z.leb_gt in Hc. exists (x :: before), after.
      split; [rewrite Hl; reflexivity|]. split; [|exact Ha].
      intros b [<-|Hin]; [lia|exact (Hb b Hin)].
Qed.

(** X5: whatever the creation times, getMondayItemData returns at most one
    asset, none only when the item has none; the one it returns is the
    first, in the order of Monday's answer, among those created last: the
    assets before it are strictly older, those after it not newer. *)
Theorem getMondayItemData_first_newest (itemId : value) (env : Env) (w : World)
    (id : string) (data : monday_data) (it : item) (rest : list item) :
  to_string itemId = Ok id ->
  monday_api w id = Ok data ->
  md_errors data = None ->
  md_items data = it :: rest ->
  exists d,
    fst (run (getMondayItemData itemId env) w) = Ok (Some d)
    /\ (item_assets it = [] -> assets d = [])
    /\ (item_assets it <> [] ->
        exists a before after,
          assets d = [a]
          /\ item_assets it = (before ++ a :: after)%list
          /\ (forall b, In b before -> created_at b < created_at a)
          /\ (forall b, In b after -> created_at b <= created_at a)).
Proof.
  intros Hid Hd He Hi.
  rewrite (getMondayItemData_present itemId env w id data it rest Hid Hd He Hi).
  exists (item_data_of env it). split; [reflexivity|].
  pose proof (sort_newest_first_first (item_assets it)) as Hs.
  unfold item_data_of. simpl assets.
  destruct (sort newest_first (item_assets it)) as [|a r].
  - split; [reflexivity|]. intros Hne. contradiction.
  - split.
    + intros Hnil. rewrite Hnil in Hs.
      destruct Hs as (before & after & Hl & _). destruct before; discriminate.
    + intros _. destruct Hs as (before & after & Hl & Hb & Ha).
      exists a, before, after. auto.
Qed.

Lemma getMondayItemData_first_newest_witness :
  exists d,
    fst (run (getMondayItemData (VNum 123) Sample.env) world_same_time)
    = Ok (Some d)
    /\ exists a before after,
         assets d = [a]
         /\ [Sample.asset1; Sample.asset2; asset2_copy]
            = (before ++ a :: after)%list
         /\ (forall b, In b before -> created_at b < created_at a)
         /\ (forall b, In b after -> created_at b <= created_at a).
Proof.
  destruct (getMondayItemData_first_newest (VNum 123) Sample.env world_same_time
              "123" {| md_errors := None; md_items := [item_same_time] |}
              item_same_time [] eq_refl eq_refl eq_refl eq_refl)
    as (d & Hd & _ & Hsome).
  exists d. split; [exact Hd|]. apply Hsome. discriminate.
Defined.

Example first_newest_on_a_tie :
  option_map assets
    (match fst (run (getMondayItemData (VNum 123) Sample.env) world_same_time) with
     | Ok d => d
     | Throw => None
     end)
  = Some [Sample.asset2].
Proof. reflexivity. Qed.

(** ** The upload to Close *)

(** X6: uploadFileToClose returns an address exactly when the
    initialisation answers with a 2xx status and a JSON body that holds a
    non-empty upload address, the form fields and a non-empty download
    address, and the post of the file to the upload address answers 201 or
    204; the address returned is then the download address.  In particular
    a 200 from the storage is a failure. *)
Theorem uploadFileToClose_success (filename : string) (contentType : prop)
    (fileData : bytes) (env : Env) (w : World) (downloadUrl : string) :
  fst (run (uploadFileToClose filename contentType fileData env) w)
  = Ok (Some downloadUrl)
  <-> exists status initData uploadUrl uploadFields s3Status,
        close_files_upload w filename contentType = Ok (status, Some initData)
        /\ ok status = true
        /\ upload_url initData = Some uploadUrl /\ uploadUrl <> ""
        /\ upload_fields initData = Some uploadFields
        /\ download_url initData = Some downloadUrl /\ downloadUrl <> ""
        /\ s3_post w uploadUrl = Ok s3Status
        /\ (s3Status = 201 \/ s3Status = 204).
Proof.
  unfold uploadFileToClose. unfold_handler. split.
  - destruct (close_files_upload w filename contentType) as [[status body]|] eqn:Hinit;
      simpl; [|discriminate].
    destruct (ok status) eqn:Hok; simpl; [|discriminate].
    destruct body as [initData|]; simpl; [|discriminate].
    destruct (upload_url initData) as [uploadUrl|] eqn:Hu; simpl; [|discriminate].
    destruct (upload_fields initData) as [uploadFields|] eqn:Hf; simpl; [|discriminate].
    destruct (download_url initData) as [dl|] eqn:Hdl; simpl; [|discriminate].
    destruct (String.eqb uploadUrl "") eqn:Hue; simpl; [discriminate|].
    destruct (String.eqb dl "") eqn:Hde; simpl; [discriminate|].
    destruct (s3_post w uploadUrl) as [s3Status|] eqn:Hs3; simpl; [|discriminate].
    destruct (s3Status =? 201) eqn:H201; simpl.
    + intros H. injection H as <-. apply Z.eqb_eq in H201.
      apply String.eqb_neq in Hue, Hde.
      exists status, initData, uploadUrl, uploadFields, s3Status. auto 10.
    + destruct (s3Status =? 204) eqn:H204; simpl; [|discriminate].
      intros H. injection H as <-. apply Z.eqb_eq in H204.
      apply String.eqb_neq in Hue, Hde.
      exists status, initData, uploadUrl, uploadFields, s3Status. auto 10.
  - intros (status & initData & uploadUrl & uploadFields & s3Status
            & Hinit & Hok & Hu & Hue & Hf & Hdl & Hde & Hs3 & Hst).
    rewrite Hinit. simpl. rewrite Hok. simpl. rewrite Hu, Hf, Hdl.
    apply String.eqb_neq in Hue, Hde. rewrite Hue, Hde. simpl. rewrite Hs3. simpl.
    destruct Hst as [-> | ->]; reflexivity.
Qed.

Example uploadFileToClose_s3_200_is_failure :
  run (uploadFileToClose "a b.pdf" (PStr "application/pdf") [] Sample.env)
      world_refusing
  = (Ok None,
     [ CloseFileInit "a b.pdf" (PStr "application/pdf");
       S3Post "https://s3.example/upload" [("key", "k1")] "a b.pdf"
              (PStr "application/pdf") [] ]).
Proof. reflexivity. Qed.

(** ** The calls of the whole handler *)

Lemma fetch_calls (P : call -> Prop) (request : Request) (env : Env) (w : World) :
  (forall itemId, calls_all P (process_item itemId env) w) ->
  calls_all P (fetch request env) w.
Proof.
  intros Hp. unfold fetch.
  destruct (negb (String.eqb (method request) "POST")); [apply calls_ret|].
  apply calls_try_catch; [|apply calls_ret].
  apply calls_bind; [apply calls_lift|]. intros body _ _.
  apply calls_bind; [apply calls_lift|]. intros challenge _ _.
  destruct (truthy challenge); [apply calls_ret|].
  apply calls_bind; [apply calls_lift|]. intros [r|itemId] _ _; [apply calls_ret|].
  destruct (negb (truthy itemId)); [apply calls_ret|]. apply Hp.
Qed.

Lemma process_item_calls_any (P : call -> Prop) (itemId : value) (env : Env)
    (w : World) :
  calls_all P (getMondayItemData itemId env) w ->
  (forall d t leadId a,
     run (getMondayItemData itemId env) w = (Ok (Some d), t) ->
     closeLeadId d = Some leadId -> leadId <> "" -> In a (assets d) ->
     calls_all P (process_asset leadId (name d) itemId env a) w) ->
  calls_all P (process_item itemId env) w.
Proof.
  intros Hg Ha. unfold process_item.
  apply calls_bind; [apply calls_lift|]. intros _ _ _.
  apply calls_bind; [exact Hg|]. intros [d|] t Hrun; [|apply calls_ret].
  destruct (closeLeadId d) as [leadId|] eqn:Hlead; [|apply calls_ret].
  destruct (String.eqb leadId "") eqn:Hne; [apply calls_ret|].
  apply String.eqb_neq in Hne.
  destruct (assets d) as [|a l] eqn:Hl; [apply calls_ret|].
  apply calls_bind; [|intros _ _ _; apply calls_ret].
  apply for_each_calls. intros x Hx.
  apply (Ha d t leadId x Hrun Hlead Hne). rewrite Hl. exact Hx.
Qed.

Lemma getMondayItemData_calls (P : call -> Prop) (itemId : value) (env : Env)
    (w : World) :
  (forall id, to_string itemId = Ok id ->
     P (MondayQuery (CLOSE_LEAD_ID_COLUMN_ID env) id (NAFA_FILE_COLUMN_ID env))) ->
  calls_all P (getMondayItemData itemId env) w.
Proof.
  intros Hq. unfold getMondayItemData.
  apply calls_bind; [apply calls_lift|]. intros id t Hid.
  apply run_lift_ok in Hid.
  apply calls_bind; [apply calls_perform, Hq, Hid|]. intros data _ _.
  destruct (md_errors data); [apply calls_ret|].
  destruct (md_items data); apply calls_ret.
Qed.

Lemma uploadFileToClose_address (filename : string) (contentType : prop)
    (fileData : bytes) (env : Env) (w : World) :
  returns_all (fun r => forall url, r = Some url -> url <> "")
              (uploadFileToClose filename contentType fileData env) w.
Proof.
  unfold uploadFileToClose.
  apply returns_all_bind. intros [status body] _ _.
  destruct (negb (ok status)); [apply returns_all_ret; discriminate|].
  apply returns_all_bind. intros initData _ _.
  destruct (upload_url initData) as [uploadUrl|]; [|apply returns_all_ret; discriminate].
  destruct (upload_fields initData); [|apply returns_all_ret; discriminate].
  destruct (download_url initData) as [dl|]; [|apply returns_all_ret; discriminate].
  destruct (String.eqb uploadUrl "") eqn:Hu; simpl;
    [apply returns_all_ret; discriminate|].
  destruct (String.eqb dl "") eqn:Hd; simpl;
    [apply returns_all_ret; discriminate|].
  apply String.eqb_neq in Hd.
  apply returns_all_bind. intros s3Status _ _.
  destruct (negb (s3Status =? 201) && negb (s3Status =? 204));
    apply returns_all_ret; [discriminate|].
  intros url H. injection H as <-. exact Hd.
Qed.

(** X7: the handler never sends Close a request with an empty lead
    identifier or an empty address: in every run, each update of the lead
    names a non-empty lead and writes a non-empty R2 address, and each note
    names a non-empty lead and attaches a non-empty Close address. *)
Theorem fetch_close_calls_filled (request : Request) (env : Env) (w : World) :
  Forall close_call_filled (snd (run (fetch request env) w)).
Proof.
  apply fetch_calls. intros itemId.
  apply process_item_calls_any.
  - apply getMondayItemData_calls. intros id _. exact I.
  - intros d t leadId a _ _ Hlead _. unfold process_asset.
    apply calls_bind; [unfold downloadMondayFile; calls; exact I|].
    intros [fileData|] _ _; [|apply calls_ret].
    apply calls_bind; [unfold uploadFileToClose; calls; exact I|].
    intros [closeFileUrl|] t1 Hup; [|apply calls_ret].
    pose proof (uploadFileToClose_address _ _ _ _ _ _ _ Hup closeFileUrl eq_refl)
      as Hurl.
    apply calls_bind; [unfold uploadFileToR2; calls; exact I|].
    intros r2PublicUrl _ _.
    apply calls_bind.
    + destruct r2PublicUrl as [url|]; [|apply calls_ret].
      destruct (String.eqb url "") eqn:Hu; [apply calls_ret|].
      apply String.eqb_neq in Hu.
      unfold updateCloseLeadField. calls. simpl. auto.
    + intros _ _ _. apply calls_bind; [|intros _ _ _; apply calls_ret].
      unfold createCloseNote. calls. simpl. auto.
Qed.

(** ** The order of the calls *)

Lemma StronglySorted_lt_app (l1 l2 : list nat) :
  StronglySorted lt l1 -> StronglySorted lt l2 ->
  (forall x y, In x l1 -> In y l2 -> (x < y)%nat) ->
  StronglySorted lt (l1 ++ l2).
Proof.
  induction l1 as [|x l1 IH]; simpl; intros H1 H2 H; [exact H2|].
  inversion H1 as [|? ? Hs Hx]; subst. constructor.
  - apply IH; auto.
  - apply Forall_app. split; [exact Hx|].
    rewrite Forall_forall. intros y Hy. apply H; auto.
Qed.

Lemma in_stages_nil (lo hi : nat) : (lo <= hi)%nat -> in_stages lo hi [].
Proof. intros H. split; [exact H|]. split; constructor. Qed.

Lemma in_stages_one (lo hi : nat) (c : call) :
  (lo <= stage c < hi)%nat -> in_stages lo hi [c].
Proof.
  intros H. split; [lia|]. split.
  - simpl. constructor; constructor.
  - constructor; [exact H|constructor].
Qed.

Lemma in_stages_app (lo mid hi : nat) (t1 t2 : list call) :
  in_stages lo mid t1 -> in_stages mid hi t2 -> in_stages lo hi (t1 ++ t2).
Proof.
  intros (Hle1 & Hs1 & Hf1) (Hle2 & Hs2 & Hf2).
  rewrite Forall_forall in Hf1, Hf2.
  split; [lia|]. split.
  - rewrite map_app. apply StronglySorted_lt_app; [exact Hs1|exact Hs2|].
    intros x y Hx Hy. apply in_map_iff in Hx, Hy.
    destruct Hx as (c1 & <- & Hc1), Hy as (c2 & <- & Hc2).
    specialize (Hf1 c1 Hc1). specialize (Hf2 c2 Hc2). lia.
  - rewrite Forall_forall. intros c Hc. apply in_app_or in Hc.
    destruct Hc as [Hc|Hc]; [specialize (Hf1 c Hc)|specialize (Hf2 c Hc)]; lia.
Qed.

Lemma in_stages_wider (lo hi lo' hi' : nat) (t : list call) :
  (lo' <= lo)%nat -> (hi <= hi')%nat -> in_stages lo hi t -> in_stages lo' hi' t.
Proof.
  intros Hlo Hhi (Hle & Hs & Hf). split; [lia|]. split; [exact Hs|].
  rewrite Forall_forall in *. intros c Hc. specialize (Hf c Hc). lia.
Qed.

Lemma within_ret (lo hi : nat) {A : Type} (a : A) (w : World) :
  (lo <= hi)%nat -> within lo hi (ret a) w.
Proof. apply in_stages_nil. Qed.

Lemma within_lift (lo hi : nat) {A : Type} (o : outcome A) (w : World) :
  (lo <= hi)%nat -> within lo hi (lift o) w.
Proof. apply in_stages_nil. Qed.

Lemma within_perform (lo hi : nat) {A : Type} (c : call)
    (answer : World -> outcome A) (w : World) :
  (lo <= stage c < hi)%nat -> within lo hi (perform c answer) w.
Proof. apply in_stages_one. Qed.

Lemma within_bind (lo mid hi : nat) {A B : Type} (m : M A) (f : A -> M B)
    (w : World) :
  (mid <= hi)%nat ->
  within lo mid m w ->
  (forall a t, run m w = (Ok a, t) -> within mid hi (f a) w) ->
  within lo hi (bind m f) w.
Proof.
  unfold within. rewrite run_bind. intros Hle Hm Hf.
  destruct (run m w) as [[a|] t] eqn:Em; simpl in *.
  - specialize (Hf a t eq_refl). destruct (run (f a) w) as [r t']. simpl in *.
    apply (in_stages_app lo mid hi); assumption.
  - apply (in_stages_wider lo mid); [lia|exact Hle|exact Hm].
Qed.

Lemma within_try_catch_ret (lo hi : nat) {A : Type} (m : M A) (a : A) (w : World) :
  within lo hi m w -> within lo hi (try_catch m (ret a)) w.
Proof.
  unfold within. rewrite run_try_catch.
  destruct (run m w) as [[x|] t]; simpl; [auto|].
  rewrite app_nil_r. auto.
Qed.

Lemma within_wider (lo hi lo' hi' : nat) {A : Type} (m : M A) (w : World) :
  (lo' <= lo)%nat -> (hi <= hi')%nat -> within lo hi m w -> within lo' hi' m w.
Proof. apply in_stages_wider. Qed.

Lemma downloadMondayFile_within (publicUrl : string) (w : World) :
  within 1 2 (downloadMondayFile publicUrl) w.
Proof.
  unfold downloadMondayFile.
  destruct (String.eqb publicUrl ""); [apply within_ret; lia|].
  apply within_try_catch_ret.
  apply (within_bind 1 2 2); [lia|apply within_perform; simpl; lia|].
  intros [status data] _ _.
  destruct (negb (ok status)); apply within_ret; lia.
Qed.

Lemma uploadFileToClose_within (filename : string) (contentType : prop)
    (fileData : bytes) (env : Env) (w : World) :
  within 2 4 (uploadFileToClose filename contentType fileData env) w.
Proof.
  unfold uploadFileToClose.
  apply (within_bind 2 3 4); [lia|apply within_perform; simpl; lia|].
  intros [status body] _ _.
  destruct (negb (ok status)); [apply within_ret; lia|].
  apply (within_bind 3 3 4); [lia|apply within_lift; lia|].
  intros initData _ _.
  destruct (upload_url initData) as [uploadUrl|]; [|apply within_ret; lia].
  destruct (upload_fields initData); [|apply within_ret; lia].
  destruct (download_url initData) as [dl|]; [|apply within_ret; lia].
  destruct (String.eqb uploadUrl "" || String.eqb dl ""); [apply within_ret; lia|].
  apply (within_bind 3 4 4); [lia|apply within_perform; simpl; lia|].
  intros s3Status _ _.
  destruct (negb (s3Status =? 201) && negb (s3Status =? 204)); apply within_ret; lia.
Qed.

Lemma uploadFileToR2_within (filename : string) (contentType : prop)
    (fileData : bytes) (itemId : value) (env : Env) (w : World) :
  within 4 5 (uploadFileToR2 filename contentType fileData itemId env) w.
Proof.
  unfold uploadFileToR2. apply within_try_catch_ret.
  apply (within_bind 4 4 5); [lia|apply within_lift; lia|]. intros id _ _.
  apply (within_bind 4 5 5); [lia|apply within_perform; simpl; lia|].
  intros _ _ _. apply within_ret. lia.
Qed.

Lemma updateCloseLeadField_within (leadId r2Url : string) (env : Env) (w : World) :
  within 5 6 (updateCloseLeadField leadId r2Url env) w.
Proof.
  unfold updateCloseLeadField. apply within_try_catch_ret.
  apply (within_bind 5 6 6); [lia|apply within_perform; simpl; lia|].
  intros status _ _. destruct (negb (ok status)); apply within_ret; lia.
Qed.

Lemma createCloseNote_within (leadId filename fileUrl : string) (contentType : prop)
    (itemName : string) (itemId : value) (env : Env) (w : World) :
  within 6 7 (createCloseNote leadId filename fileUrl contentType itemName itemId env) w.
Proof.
  unfold createCloseNote.
  apply (within_bind 6 6 7); [lia|apply in_stages_nil; lia|]. intros w' _ _.
  apply (within_bind 6 7 7); [lia|apply within_perform; simpl; lia|].
  intros status _ _. destruct (negb (ok status)); apply within_ret; lia.
Qed.

Lemma process_asset_within (leadId itemName : string) (itemId : value)
    (env : Env) (a : asset) (w : World) :
  within 1 7 (process_asset leadId itemName itemId env a) w.
Proof.
  unfold process_asset.
  apply (within_bind 1 2 7); [lia|apply downloadMondayFile_within|].
  intros [fileData|] _ _; [|apply within_ret; lia].
  apply (within_bind 2 4 7); [lia|apply uploadFileToClose_within|].
  intros [closeFileUrl|] _ _; [|apply within_ret; lia].
  apply (within_bind 4 5 7); [lia|apply uploadFileToR2_within|].
  intros r2PublicUrl _ _.
  apply (within_bind 5 6 7); [lia| |].
  - destruct r2PublicUrl as [url|]; [|apply within_ret; lia].
    destruct (String.eqb url ""); [apply within_ret; lia|].
    apply updateCloseLeadField_within.
  - intros _ _ _.
    apply (within_bind 6 7 7); [lia|apply createCloseNote_within|].
    intros _ _ _. apply within_ret. lia.
Qed.

Lemma getMondayItemData_one_asset (itemId : value) (env : Env) (w : World) :
  returns_all (fun r => forall d, r = Some d -> (List.length (assets d) <= 1)%nat)
              (getMondayItemData itemId env) w.
Proof.
  unfold getMondayItemData.
  apply returns_all_bind. intros id _ _.
  apply returns_all_bind. intros data _ _.
  destruct (md_errors data); [apply returns_all_ret; discriminate|].
  destruct (md_items data) as [|it rest]; [apply returns_all_ret; discriminate|].
  apply returns_all_ret. intros d H. injection H as <-. simpl.
  destruct (sort newest_first (item_assets it)); simpl; lia.
Qed.

(** X8: in every run of the handler the outbound calls are made in the
    order of the pipeline, and each at most once: the Monday query, the
    download, the initialisation at Close, the post to the storage, the put
    into the bucket, the update of the lead, the note. *)
Theorem fetch_calls_in_order (request : Request) (env : Env) (w : World) :
  StronglySorted lt (map stage (snd (run (fetch request env) w))).
Proof.
  assert (H : within 0 7 (fetch request env) w).
  { unfold fetch.
    destruct (negb (String.eqb (method request) "POST")); [apply within_ret; lia|].
    apply within_try_catch_ret.
    apply (within_bind 0 0 7); [lia|apply within_lift; lia|]. intros body _ _.
    apply (within_bind 0 0 7); [lia|apply within_lift; lia|]. intros challenge _ _.
    destruct (truthy challenge); [apply within_ret; lia|].
    apply (within_bind 0 0 7); [lia|apply within_lift; lia|].
    intros [r|itemId] _ _; [apply within_ret; lia|].
    destruct (negb (truthy itemId)); [apply within_ret; lia|].
    unfold process_item.
    apply (within_bind 0 0 7); [lia|apply within_lift; lia|]. intros _ _ _.
    apply (within_bind 0 1 7); [lia| |].
    - unfold getMondayItemData.
      apply (within_bind 0 0 1); [lia|apply within_lift; lia|]. intros id _ _.
      apply (within_bind 0 1 1); [lia|apply within_perform; simpl; lia|].
      intros data _ _.
      destruct (md_errors data); [apply within_ret; lia|].
      destruct (md_items data); apply within_ret; lia.
    - intros [d|] t Hrun; [|apply within_ret; lia].
      pose proof (getMondayItemData_one_asset itemId env w _ t Hrun d eq_refl) as Hone.
      destruct (closeLeadId d) as [leadId|]; [|apply within_ret; lia].
      destruct (String.eqb leadId ""); [apply within_ret; lia|].
      destruct (assets d) as [|a [|b l]]; [apply within_ret; lia| |simpl in Hone; lia].
      apply (within_bind 1 7 7); [lia| |intros _ _ _; apply within_ret; lia].
      simpl for_each.
      apply (within_bind 1 7 7); [lia|apply process_asset_within|].
      intros _ _ _. apply within_ret. lia. }
  exact (proj1 (proj2 H)).
Qed.

(** ** The turn of the loop, step by step *)

(** X9: when the download fails, because the asset has no address, the
    fetch is rejected or the status is not 2xx, the turn of the loop ends
    normally and nothing is sent to Close or to the bucket: the only call is
    the download, and not even that without an address. *)
Theorem process_asset_download_fails (leadId itemName : string) (itemId : value)
    (env : Env) (a : asset) (w : World) :
  public_url a = ""
  \/ monday_file w (public_url a) = Throw
  \/ (exists status data,
        monday_file w (public_url a) = Ok (status, data) /\ ok status = false) ->
  run (process_asset leadId itemName itemId env a) w
  = (Ok tt, if String.eqb (public_url a) "" then []
            else [MondayDownload (public_url a)]).
Proof.
  intros H. unfold process_asset, downloadMondayFile.
  destruct (String.eqb (public_url a) "") eqn:Hu; [reflexivity|].
  unfold_handler.
  destruct H as [H|[H|(status & data & H & Hok)]].
  - apply String.eqb_neq in Hu. contradiction.
  - rewrite H. reflexivity.
  - rewrite H. simpl. rewrite Hok. reflexivity.
Qed.

Lemma process_asset_download_fails_witness :
  run (process_asset "lead_42" "Jane Doe" (VNum 123) Sample.env Sample.asset2)
      world_no_download
  = (Ok tt, [MondayDownload "https://files.example/2"]).
Proof.
  apply (process_asset_download_fails "lead_42" "Jane Doe" (VNum 123) Sample.env
           Sample.asset2 world_no_download).
  right. right. exists 403, []. split; reflexivity.
Defined.

(** X10: when the file is downloaded and uploadFileToClose returns null,
    the turn of the loop ends normally after the calls of these two steps:
    nothing is put into the bucket, the lead is not updated and no note is
    created. *)
Theorem process_asset_close_upload_fails (leadId itemName : string)
    (itemId : value) (env : Env) (a : asset) (w : World) (fileData : bytes)
    (t0 t1 : list call) :
  run (downloadMondayFile (public_url a)) w = (Ok (Some fileData), t0) ->
  run (uploadFileToClose (asset_name a) (getMimeType (asset_name a)) fileData env) w
  = (Ok None, t1) ->
  run (process_asset leadId itemName itemId env a) w = (Ok tt, (t0 ++ t1)%list)
  /\ Forall (fun c => (stage c < 4)%nat) (t0 ++ t1).
Proof.
  intros H0 H1. split.
  - unfold process_asset. rewrite run_bind, H0. cbv iota beta.
    rewrite run_bind, H1. cbv iota beta. rewrite run_ret, app_nil_r. reflexivity.
  - pose proof (downloadMondayFile_within (public_url a) w) as (_ & _ & W0).
    pose proof (uploadFileToClose_within (asset_name a)
                  (getMimeType (asset_name a)) fileData env w) as (_ & _ & W1).
    rewrite H0 in W0. rewrite H1 in W1. simpl in W0, W1.
    rewrite Forall_forall in *. intros c Hc. apply in_app_or in Hc.
    destruct Hc as [Hc|Hc]; [specialize (W0 c Hc)|specialize (W1 c Hc)]; lia.
Qed.

Lemma process_asset_close_upload_fails_witness :
  run (process_asset "lead_42" "Jane Doe" (VNum 123) Sample.env Sample.asset2)
      world_refusing
  = (Ok tt,
     [ MondayDownload "https://files.example/2";
       CloseFileInit "a b.pdf" (PStr "application/pdf");
       S3Post "https://s3.example/upload" [("key", "k1")] "a b.pdf"
              (PStr "application/pdf") [Byte.x25; Byte.x50] ]).
Proof.
  exact (proj1 (process_asset_close_upload_fails "lead_42" "Jane Doe" (VNum 123)
                  Sample.env Sample.asset2 world_refusing [Byte.x25; Byte.x50]
                  [MondayDownload "https://files.example/2"]
                  [CloseFileInit "a b.pdf" (PStr "application/pdf");
                   S3Post "https://s3.example/upload" [("key", "k1")] "a b.pdf"
                          (PStr "application/pdf") [Byte.x25; Byte.x50]]
                  eq_refl eq_refl)).
Defined.

Lemma uploadFileToR2_address (filename : string) (contentType : prop)
    (fileData : bytes) (itemId : value) (env : Env) (w : World) :
  returns_all (fun r => forall url, r = Some url -> url <> "")
              (uploadFileToR2 filename contentType fileData itemId env) w.
Proof.
  unfold uploadFileToR2.
  apply returns_all_try_catch; [|apply returns_all_ret; discriminate].
  apply returns_all_bind. intros id _ _.
  apply returns_all_bind. intros _ _ _.
  apply returns_all_ret. intros url H. injection H as <-.
  destruct (R2_PUBLIC_URL env); discriminate.
Qed.

(** X11: when both uploads succeed, the turn of the loop asks Close to
    write the R2 address into the custom field of the lead, named
    custom. followed by the configured field identifier, and then to create
    the note with the Close address; the note request is made whatever
    becomes of the update, even when its fetch is rejected. *)
Theorem process_asset_both_uploaded (leadId itemName : string) (itemId : value)
    (env : Env) (a : asset) (w : World) (fileData : bytes)
    (closeFileUrl r2PublicUrl : string) (t0 t1 t2 : list call) :
  run (downloadMondayFile (public_url a)) w = (Ok (Some fileData), t0) ->
  run (uploadFileToClose (asset_name a) (getMimeType (asset_name a)) fileData env) w
  = (Ok (Some closeFileUrl), t1) ->
  run (uploadFileToR2 (asset_name a) (getMimeType (asset_name a)) fileData itemId env) w
  = (Ok (Some r2PublicUrl), t2) ->
  snd (run (process_asset leadId itemName itemId env a) w)
  = (t0 ++ t1 ++ t2
     ++ [ CloseLeadPut leadId ("custom." ++ CLOSE_NAFA_URL_FIELD_ID env) r2PublicUrl;
          note_call leadId itemName a closeFileUrl w ])%list.
Proof.
  intros H0 H1 H2.
  pose proof (uploadFileToR2_address _ _ _ _ _ _ _ _ H2 r2PublicUrl eq_refl) as Hne.
  apply String.eqb_neq in Hne.
  unfold process_asset.
  rewrite run_bind, H0. cbv iota beta.
  rewrite run_bind, H1. cbv iota beta.
  rewrite run_bind, H2. cbv iota beta.
  rewrite Hne. unfold updateCloseLeadField, createCloseNote, note_call.
  unfold_handler.
  destruct (close_lead_put w leadId r2PublicUrl) as [st|]; simpl;
    [destruct (negb (ok st)); simpl|];
    (destruct (close_note_post w leadId closeFileUrl) as [st'|]; simpl;
     [destruct (negb (ok st')); simpl|]); reflexivity.
Qed.

Lemma process_asset_both_uploaded_witness :
  snd (run (process_asset "lead_42" "Jane Doe" (VNum 123) Sample.env Sample.asset2)
           world_lead_put_down)
  = [ MondayDownload "https://files.example/2";
      CloseFileInit "a b.pdf" (PStr "application/pdf");
      S3Post "https://s3.example/upload" [("key", "k1")] "a b.pdf"
             (PStr "application/pdf") [Byte.x25; Byte.x50];
      BucketPut "123/a b.pdf" [Byte.x25; Byte.x50] (PStr "application/pdf");
      CloseLeadPut "lead_42" "custom.cf_nafa" "https://r2.example/123/a%20b.pdf";
      CloseNotePost "lead_42" (note_text "a b.pdf" "Jane Doe" "2024-05-06")
                    "https://close.example/file/9" "a b.pdf"
                    (PStr "application/pdf") ].
Proof.
  exact (process_asset_both_uploaded "lead_42" "Jane Doe" (VNum 123)
           Sample.env Sample.asset2 world_lead_put_down
           [Byte.x25; Byte.x50] "https://close.example/file/9"
           "https://r2.example/123/a%20b.pdf"
           [MondayDownload "https://files.example/2"]
           [CloseFileInit "a b.pdf" (PStr "application/pdf");
            S3Post "https://s3.example/upload" [("key", "k1")] "a b.pdf"
                   (PStr "application/pdf") [Byte.x25; Byte.x50]]
           [BucketPut "123/a b.pdf" [Byte.x25; Byte.x50] (PStr "application/pdf")]
           eq_refl eq_refl eq_refl).
Defined.

(** ** Refusals do not change the answer *)





Example fetch_ok_despite_refusals :
  run (fetch (Sample.post (Sample.event_body 123)) Sample.env) world_refusing
  = (Ok (text_response "OK" 200),
     [ MondayQuery "lead" "123" "files";
       MondayDownload "https://files.example/2";
       CloseFileInit "a b.pdf" (PStr "application/pdf");
       S3Post "https://s3.example/upload" [("key", "k1")] "a b.pdf"
              (PStr "application/pdf") [Byte.x25; Byte.x50] ]).
Proof. reflexivity. Qed.

(** ** The item without a lead *)

Lemma or_str_none (a : option string) :
  truthy_str a = false -> or_str a None = None.
Proof. unfold or_str. intros ->. reflexivity. Qed.

Lemma no_lead_id_none (env : Env) (it : item) :
  no_lead_id env it -> closeLeadId (item_data_of env it) = None.
Proof.
  unfold no_lead_id, item_data_of. simpl closeLeadId.
  destruct (find _ (column_values it)) as [col|]; [|reflexivity].
  intros [[Ht Hd]|(s & Hs & Hne & Htrim)].
  - unfold or_str at 3. rewrite Ht. unfold or_str at 2. rewrite Hd. reflexivity.
  - rewrite Hs. apply String.eqb_neq in Hne.
    unfold or_str at 3. simpl. rewrite Hne. simpl.
    unfold or_str at 2. simpl. rewrite Hne. simpl. rewrite Htrim. reflexivity.
Qed.

(** X13: when the lead column of the item gives no identifier, the handler
    stops after the Monday query and answers 200 with the text No Close
    Lead ID on item.  This is so when the column is not among the column
    values, when it has neither text nor display value, and also when its
    text is made of white space only: the display value is then not
    consulted, even if it holds an identifier. *)
Theorem process_item_no_lead (itemId : value) (env : Env) (w : World)
    (id : string) (data : monday_data) (it : item) (rest : list item) :
  to_string itemId = Ok id ->
  monday_api w id = Ok data ->
  md_errors data = None ->
  md_items data = it :: rest ->
  no_lead_id env it ->
  run (process_item itemId env) w
  = (Ok (text_response "No Close Lead ID on item" 200),
     [MondayQuery (CLOSE_LEAD_ID_COLUMN_ID env) id (NAFA_FILE_COLUMN_ID env)]).
Proof.
  intros Hid Hd He Hi Hno.
  pose proof (getMondayItemData_present itemId env w id data it rest Hid Hd He Hi)
    as Hg.
  unfold process_item.
  rewrite run_bind, run_lift, Hid. cbv iota beta.
  rewrite run_bind, Hg. cbv iota beta.
  rewrite (no_lead_id_none env it Hno). reflexivity.
Qed.

Lemma process_item_no_lead_witness :
  run (process_item (VNum 123) Sample.env) world_blank_lead
  = (Ok (text_response "No Close Lead ID on item" 200),
     [MondayQuery "lead" "123" "files"]).
Proof.
  refine (process_item_no_lead (VNum 123) Sample.env world_blank_lead "123"
            {| md_errors := None; md_items := [item_blank_lead] |}
            item_blank_lead [] eq_refl eq_refl eq_refl eq_refl _).
  right. exists "   ". repeat split. discriminate.
Defined.

(** ** The extension of a file name *)

Lemma rev_onto_rev_onto (s a b : string) :
  Str.rev_onto (Str.rev_onto s a) b = Str.rev_onto a (s ++ b).
Proof.
  revert a b. induction s as [|c s IH]; intros a b; simpl; [reflexivity|].
  rewrite IH. reflexivity.
Qed.

Lemma append_empty_r (s : string) : (s ++ "")%string = s.
Proof. induction s as [|c s IH]; simpl; [reflexivity|]. rewrite IH. reflexivity. Qed.

Lemma rev_rev (s : string) : Str.rev (Str.rev s) = s.
Proof.
  unfold Str.rev. rewrite rev_onto_rev_onto. simpl. apply append_empty_r.
Qed.

Lemma split_onto_without (sep : ascii) (s cur : string) :
  contains sep s = false ->
  Str.split_onto sep s cur = [Str.rev (Str.rev_onto s cur)].
Proof.
  revert cur. induction s as [|c s IH]; intros cur H; simpl in *; [reflexivity|].
  rewrite (Ascii.eqb_sym c sep).
  destruct (Ascii.eqb sep c); simpl in H; [discriminate|].
  apply IH. exact H.
Qed.

Lemma pop_cons (x : string) (l : list string) (y : string) :
  Str.pop l = Some y -> Str.pop (x :: l) = Some y.
Proof. destruct l; [discriminate|]. intros H. exact H. Qed.

Lemma pop_split_onto (sep : ascii) (stem ext cur : string) :
  contains sep ext = false ->
  Str.pop (Str.split_onto sep (stem ++ String sep ext) cur) = Some ext.
Proof.
  intros Hext. revert cur. induction stem as [|c stem IH]; intros cur; simpl.
  - rewrite Ascii.eqb_refl. apply pop_cons.
    rewrite (split_onto_without sep ext "" Hext). simpl.
    fold (Str.rev ext). rewrite rev_rev. reflexivity.
  - destruct (Ascii.eqb c sep); [apply pop_cons|]; apply IH.
Qed.

Lemma extension_of (stem ext : string) :
  contains "." ext = false ->
  extension (stem ++ "." ++ ext) = Some (Str.toLowerCase ext).
Proof.
  intros H. unfold extension, Str.split. simpl append.
  rewrite (pop_split_onto "." stem ext "" H). reflexivity.
Qed.

(** X14: for a file name that ends in a dot followed by an extension
    without dot, the content type depends on the extension only, and not on
    the case of its letters: two such names whose extensions are the same
    once lowered get the same type, whatever precedes the last dot, and when
    the lowered extension is a key of the table the type is the entry of
    that key. *)
Theorem getMimeType_by_extension (stem ext : string) :
  contains "." ext = false ->
  (forall stem' ext',
     contains "." ext' = false ->
     Str.toLowerCase ext' = Str.toLowerCase ext ->
     getMimeType (stem' ++ "." ++ ext') = getMimeType (stem ++ "." ++ ext))
  /\ (forall mime,
        assoc (Str.toLowerCase ext) mimeTypes = Some mime ->
        getMimeType (stem ++ "." ++ ext) = PStr mime).
Proof.
  intros H. split.
  - intros stem' ext' H' Hl. unfold getMimeType.
    rewrite (extension_of stem ext H), (extension_of stem' ext' H'), Hl.
    reflexivity.
  - intros mime Hm.
    exact (getMimeType_table _ _ mime (extension_of stem ext H) Hm).
Qed.

Lemma getMimeType_by_extension_witness :
  getMimeType ("Audit.2024.final" ++ "." ++ "XlSx")
  = PStr "application/vnd.openxmlformats-officedocument.spreadsheetml.sheet".
Proof.
  exact (proj2 (getMimeType_by_extension "Audit.2024.final" "XlSx" eq_refl)
           "application/vnd.openxmlformats-officedocument.spreadsheetml.sheet"
           eq_refl).
Defined.

(** ** The public address of a file *)

Lemma nat_of_hex_digit (n : nat) :
  (n < 16)%nat ->
  nat_of_ascii (Str.hex_digit n) = if Nat.ltb n 10 then (48 + n)%nat else (55 + n)%nat.
Proof.
  intros H. unfold Str.hex_digit.
  destruct (Nat.ltb n 10); apply nat_ascii_embedding; lia.
Qed.

Lemma hex_digit_inj (a b : nat) :
  (a < 16)%nat -> (b < 16)%nat -> Str.hex_digit a = Str.hex_digit b -> a = b.
Proof.
  intros Ha Hb H. apply (f_equal nat_of_ascii) in H.
  rewrite (nat_of_hex_digit a Ha), (nat_of_hex_digit b Hb) in H.
  destruct (Nat.ltb a 10) eqn:Ea, (Nat.ltb b 10) eqn:Eb;
    try apply Nat.ltb_lt in Ea; try apply Nat.ltb_lt in Eb;
    try apply Nat.ltb_ge in Ea; try apply Nat.ltb_ge in Eb; lia.
Qed.

Lemma hex_pair_inj (c1 c2 : ascii) :
  Str.hex_digit (nat_of_ascii c1 / 16) = Str.hex_digit (nat_of_ascii c2 / 16) ->
  Str.hex_digit (nat_of_ascii c1 mod 16) = Str.hex_digit (nat_of_ascii c2 mod 16) ->
  c1 = c2.
Proof.
  intros Hhi Hlo.
  pose proof (nat_ascii_bounded c1) as B1. pose proof (nat_ascii_bounded c2) as B2.
  apply hex_digit_inj in Hhi;
    [|apply Nat.Div0.div_lt_upper_bound; lia|apply Nat.Div0.div_lt_upper_bound; lia].
  apply hex_digit_inj in Hlo; [|apply Nat.mod_upper_bound; lia|apply Nat.mod_upper_bound; lia].
  rewrite <- (ascii_nat_embedding c1), <- (ascii_nat_embedding c2).
  f_equal.
  rewrite (Nat.div_mod_eq (nat_of_ascii c1) 16), (Nat.div_mod_eq (nat_of_ascii c2) 16).
  rewrite Hhi, Hlo. reflexivity.
Qed.

Lemma encodeURIComponent_inj (s1 s2 : string) :
  Str.encodeURIComponent s1 = Str.encodeURIComponent s2 -> s1 = s2.
Proof.
  revert s2. induction s1 as [|c1 s1 IH]; intros [|c2 s2]; simpl.
  - reflexivity.
  - destruct (Str.uri_unreserved c2); discriminate.
  - destruct (Str.uri_unreserved c1); discriminate.
  - destruct (Str.uri_unreserved c1) eqn:U1, (Str.uri_unreserved c2) eqn:U2;
      intros H.
    + injection H as -> H. f_equal. apply IH. exact H.
    + injection H as -> _. discriminate U1.
    + injection H as <- _. discriminate U2.
    + injection H as Hhi Hlo H.
      rewrite (hex_pair_inj c1 c2 Hhi Hlo). f_equal. apply IH. exact H.
Qed.

Lemma append_inj_l (a b c : string) : (a ++ b)%string = (a ++ c)%string -> b = c.
Proof.
  induction a as [|x a IH]; simpl; intros H; [exact H|].
  injection H as H. apply IH. exact H.
Qed.

(** X15: two files of one item with different names never get the same
    public address: the percent-encoding of the name loses nothing. *)
Theorem uploadFileToR2_addresses_distinct (filename1 filename2 : string)
    (contentType1 contentType2 : prop) (fileData1 fileData2 : bytes)
    (itemId : value) (env : Env) (w : World) (url1 url2 : string) :
  filename1 <> filename2 ->
  fst (run (uploadFileToR2 filename1 contentType1 fileData1 itemId env) w)
  = Ok (Some url1) ->
  fst (run (uploadFileToR2 filename2 contentType2 fileData2 itemId env) w)
  = Ok (Some url2) ->
  url1 <> url2.
Proof.
  unfold uploadFileToR2. unfold_handler.
  destruct (to_string itemId) as [id|]; simpl; [|discriminate].
  destruct (bucket_put w _); simpl; [|discriminate].
  destruct (bucket_put w _); simpl; [|discriminate].
  intros Hne H1 H2 Heq. injection H1 as <-. injection H2 as <-.
  apply append_inj_l in Heq. injection Heq as Heq.
  apply append_inj_l in Heq. injection Heq as Heq.
  apply Hne, encodeURIComponent_inj. exact Heq.
Qed.

Lemma uploadFileToR2_addresses_distinct_witness :
  "https://r2.example/123/a%20b.pdf" <> "https://r2.example/123/a%2520b.pdf".
Proof.
  refine (uploadFileToR2_addresses_distinct "a b.pdf" "a%20b.pdf"
            (PStr "application/pdf") (PStr "application/pdf") [] []
            (VNum 123) Sample.env Sample.world
            "https://r2.example/123/a%20b.pdf"
            "https://r2.example/123/a%2520b.pdf" _ eq_refl eq_refl).
  discriminate.
Defined.

(** ** Exceptions before the item is known *)

Lemma fetch_to_process_item (request : Request) (env : Env) (w : World)
    (body c itemId : value) :
  method request = "POST" ->
  json request = Ok body ->
  get body "challenge" = Ok c ->
  truthy c = false ->
  extract_item_id body env = Ok (ItemId itemId) ->
  truthy itemId = true ->
  run (fetch request env) w
  = run (try_catch (process_item itemId env)
                   (ret (text_response "Internal error" 500))) w.
Proof.
  intros Hm Hj Hc Hf He Ht.
  rewrite (fetch_no_challenge request env w body c Hm Hj Hc Hf).
  rewrite !run_try_catch, run_bind, run_lift, He. cbv iota beta.
  rewrite Ht. simpl negb. cbv iota.
  destruct (run (process_item itemId env) w) as [[r|] t]; reflexivity.
Qed.

(** X17: when the request to Monday is rejected, or its answer is not
    JSON, the handler answers 500 with the text Internal error, the query
    being its only outbound call; and when the item identifier has no
    string form (an object with a toString property of its own), it answers
    the same without any outbound call. *)
Theorem fetch_exception_before_item (request : Request) (env : Env) (w : World)
    (body c itemId : value) :
  method request = "POST" ->
  json request = Ok body ->
  get body "challenge" = Ok c ->
  truthy c = false ->
  extract_item_id body env = Ok (ItemId itemId) ->
  truthy itemId = true ->
  (to_string itemId = Throw ->
   run (fetch request env) w = (Ok (text_response "Internal error" 500), []))
  /\ (forall id,
        to_string itemId = Ok id ->
        monday_api w id = Throw ->
        run (fetch request env) w
        = (Ok (text_response "Internal error" 500),
           [MondayQuery (CLOSE_LEAD_ID_COLUMN_ID env) id (NAFA_FILE_COLUMN_ID env)])).
Proof.
  intros Hm Hj Hc Hf He Ht.
  rewrite (fetch_to_process_item request env w body c itemId Hm Hj Hc Hf He Ht).
  unfold process_item, getMondayItemData. split.
  - intros Hid. unfold_handler. rewrite Hid. reflexivity.
  - intros id Hid Hd. unfold_handler. rewrite Hid. simpl. rewrite Hd. reflexivity.
Qed.

Lemma fetch_exception_before_item_witness :
  run (fetch (Sample.post unprintable_id_body) Sample.env) Sample.world
  = (Ok (text_response "Internal error" 500), []).
Proof.
  exact (proj1 (fetch_exception_before_item (Sample.post unprintable_id_body)
                  Sample.env Sample.world unprintable_id_body VUndefined
                  (VObj [("toString", VNum 1)])
                  eq_refl eq_refl eq_refl eq_refl eq_refl eq_refl) eq_refl).
Defined.

(** ** The lead and the assets of the item *)

Lemma lead_text_trimmed (env : Env) (it : item) (col : column_value) (s : string) :
  find (fun col => String.eqb (cv_id col) (CLOSE_LEAD_ID_COLUMN_ID env))
       (column_values it) = Some col ->
  cv_text col = Some s ->
  Str.trim s <> "" ->
  closeLeadId (item_data_of env it) = Some (Str.trim s).
Proof.
  intros Hfind Htext Htrim. unfold item_data_of. simpl closeLeadId.
  rewrite Hfind, Htext.
  assert (Hs : String.eqb s "" = false).
  { apply String.eqb_neq. intros ->. apply Htrim. reflexivity. }
  apply String.eqb_neq in Htrim.
  unfold or_str at 3. simpl. rewrite Hs. simpl.
  unfold or_str at 2. simpl. rewrite Hs. simpl.
  unfold or_str. simpl. rewrite Htrim. reflexivity.
Qed.

(** X18: when the lead column has a text that is not only white space,
    the lead that the handler names in its requests to Close is that text
    without the white space around it. *)
Theorem process_item_lead_trimmed (itemId : value) (env : Env) (w : World)
    (id : string) (data : monday_data) (it : item) (rest : list item)
    (col : column_value) (s : string) :
  to_string itemId = Ok id ->
  monday_api w id = Ok data ->
  md_errors data = None ->
  md_items data = it :: rest ->
  find (fun col => String.eqb (cv_id col) (CLOSE_LEAD_ID_COLUMN_ID env))
       (column_values it) = Some col ->
  cv_text col = Some s ->
  Str.trim s <> "" ->
  Forall (names_lead (Str.trim s)) (snd (run (process_item itemId env) w)).
Proof.
  intros Hid Hd He Hi Hfind Htext Htrim.
  pose proof (getMondayItemData_present itemId env w id data it rest Hid Hd He Hi)
    as Hg.
  pose proof (lead_text_trimmed env it col s Hfind Htext Htrim) as Hlead.
  apply process_item_calls_any.
  - apply getMondayItemData_calls. intros id' _. exact I.
  - intros d t leadId a Hrun Hl _ _. rewrite Hg in Hrun.
    injection Hrun as <- _. rewrite Hlead in Hl. injection Hl as <-.
    unfold process_asset, downloadMondayFile, uploadFileToClose, uploadFileToR2,
      updateCloseLeadField, createCloseNote.
    calls; simpl; auto.
Qed.

Lemma process_item_lead_trimmed_witness :
  Forall (names_lead "lead_42")
         (snd (run (process_item (VNum 123) Sample.env) Sample.world)).
Proof.
  refine (process_item_lead_trimmed (VNum 123) Sample.env Sample.world "123"
            {| md_errors := None; md_items := [Sample.the_item] |}
            Sample.the_item []
            {| cv_id := "lead"; cv_text := Some " lead_42 "; cv_display_value := None |}
            " lead_42 " eq_refl eq_refl eq_refl eq_refl eq_refl eq_refl _).
  discriminate.
Defined.

Lemma getMondayItemData_trace (itemId : value) (env : Env) (w : World)
    (r : option item_data) (t : list call) :
  run (getMondayItemData itemId env) w = (Ok r, t) ->
  exists id,
    to_string itemId = Ok id
    /\ t = [MondayQuery (CLOSE_LEAD_ID_COLUMN_ID env) id (NAFA_FILE_COLUMN_ID env)].
Proof.
  unfold getMondayItemData. rewrite run_bind, run_lift.
  destruct (to_string itemId) as [id|]; [|discriminate].
  cbv iota beta. rewrite run_bind, run_perform.
  destruct (monday_api w id) as [data|]; [|discriminate].
  cbv iota beta. intros H. exists id. split; [reflexivity|].
  destruct (md_errors data); [|destruct (md_items data)];
    rewrite run_ret in H; injection H as _ <-; reflexivity.
Qed.

Lemma getMondayItemData_lead_filled (itemId : value) (env : Env) (w : World) :
  returns_all (fun r => forall d leadId,
                 r = Some d -> closeLeadId d = Some leadId -> leadId <> "")
              (getMondayItemData itemId env) w.
Proof.
  unfold getMondayItemData.
  apply returns_all_bind. intros id _ _.
  apply returns_all_bind. intros data _ _.
  destruct (md_errors data); [apply returns_all_ret; discriminate|].
  destruct (md_items data) as [|it rest]; [apply returns_all_ret; discriminate|].
  apply returns_all_ret. intros d leadId H. injection H as <-. simpl closeLeadId.
  unfold or_str at 1.
  destruct (truthy_str (option_map Str.trim _)) eqn:Ht; [|discriminate].
  intros Hl. rewrite Hl in Ht. simpl in Ht.
  apply String.eqb_neq. destruct (String.eqb leadId ""); [discriminate|reflexivity].
Qed.

(** X19: when getMondayItemData returns an item with a lead identifier,
    whether it comes from the text or from the display value of the lead
    column, and no asset, the handler answers with status 200 and the text
    No file assets found, the Monday query being the only outbound call. *)
Theorem process_item_no_assets (itemId : value) (env : Env) (w : World)
    (d : item_data) (t : list call) (leadId : string) :
  run (getMondayItemData itemId env) w = (Ok (Some d), t) ->
  closeLeadId d = Some leadId ->
  assets d = [] ->
  run (process_item itemId env) w
  = (Ok (text_response "No file assets found" 200), t)
  /\ exists id,
       to_string itemId = Ok id
       /\ t = [MondayQuery (CLOSE_LEAD_ID_COLUMN_ID env) id (NAFA_FILE_COLUMN_ID env)].
Proof.
  intros Hg Hlead Hnone.
  destruct (getMondayItemData_trace itemId env w _ t Hg) as (id & Hid & Ht).
  pose proof (getMondayItemData_lead_filled itemId env w _ t Hg d leadId eq_refl Hlead)
    as Hne.
  split; [|exists id; auto].
  unfold process_item.
  rewrite run_bind, run_lift, Hid. cbv iota beta.
  rewrite run_bind, Hg. cbv iota beta. rewrite Hlead.
  apply String.eqb_neq in Hne. rewrite Hne, Hnone. rewrite run_ret, app_nil_r.
  reflexivity.
Qed.

Lemma process_item_no_assets_witness :
  run (process_item (VNum 123) Sample.env) world_no_assets
  = (Ok (text_response "No file assets found" 200),
     [MondayQuery "lead" "123" "files"]).
Proof.
  exact (proj1 (process_item_no_assets (VNum 123) Sample.env world_no_assets
                  (item_data_of Sample.env item_no_assets)
                  [MondayQuery "lead" "123" "files"] "lead_42"
                  eq_refl eq_refl eq_refl)).
Defined.

(** The lead identifier of that item comes from the display value. *)
Example item_no_assets_lead :
  closeLeadId (item_data_of Sample.env item_no_assets) = Some "lead_42"
  /\ cv_text (hd {| cv_id := ""; cv_text := None; cv_display_value := None |}
                 (column_values item_no_assets)) = None.
Proof. split; reflexivity. Qed.

(** ** The column filter *)








(** On that event the pipeline runs to its end. *)
Example fetch_event_without_columnId_runs :
  run (fetch (Sample.post no_column_body) Sample.env) Sample.world
  = (Ok (text_response "OK" 200),
     [ MondayQuery "lead" "123" "files";
       MondayDownload "https://files.example/2";
       CloseFileInit "a b.pdf" (PStr "application/pdf");
       S3Post "https://s3.example/upload" [("key", "k1")] "a b.pdf"
              (PStr "application/pdf") [Byte.x25; Byte.x50];
       BucketPut "123/a b.pdf" [Byte.x25; Byte.x50] (PStr "application/pdf");
       CloseLeadPut "lead_42" "custom.cf_nafa" "https://r2.example/123/a%20b.pdf";
       CloseNotePost "lead_42"
         (note_text "a b.pdf" "Jane Doe" "2024-05-06")
         "https://close.example/file/9" "a b.pdf" (PStr "application/pdf") ]).
Proof. reflexivity. Qed.

(** ** Numbers as strings *)

Example of_number_examples :
  map Str.of_number
      [0; 123; -45; 9007199254740993; 18446744073709551616;
       123456789012345680000; 1000000000000000000000;
       1180591620717411303424]
  = [ "0"; "123"; "-45"; "9007199254740992"; "18446744073709552000";
      "123456789012345680000"; "1e+21"; "1.1805916207174113e+21" ].
Proof. vm_compute. reflexivity. Qed.
